(** * Quick Quiz API proxy: the rate-limited relay of [api/anthropic.js]

    A shallow embedding of the serverless function [handler] and of
    [getRedis], together with the JavaScript primitives the handler relies
    on ([parseInt], [||], [>=], [Math.max], [toString], [split], [trim],
    [JSON.stringify]), followed by the properties of the relay: quota
    enforcement, counting, pass-through of body and status, fail-open
    behaviour on store failures, and confinement of the API key.

    Conventions of the model.
    - A JavaScript string is a [string]: a sequence of code units, here
      restricted to U+0000..U+00FF.
    - A JavaScript number is an exact integer or [NaN] ([JSNumber]).  The
      model is that of the safe integers: it agrees with IEEE-754 doubles
      on the integers of magnitude at most [MAX_SAFE_INTEGER] = 2^53 - 1,
      where every integer is a double, sums and differences are exact and
      [toString] writes plain decimal digits.  Beyond that range doubles
      round and print in exponent form, which the model does not follow:
      a property that fixes the digits or the arithmetic of a recorded
      count states the range ([safe_integer], [safe_number]) it holds in.
      Negative zero is identified with zero (the handler cannot tell them
      apart).
    - A call to the store client ([redis.get], [redis.set]) or to [fetch]
      is one effect, whatever the client does on the wire to carry it out
      (retries included).  The client is taken as constructed: a library
      that validates the URL in its constructor, and throws, is outside
      the model.
    - The counter store, the upstream API, the clock and the console are
      the outside world.  The handler runs in a monad that threads the
      content of the store and the list of effects performed, and in which
      an awaited call either completes or throws. *)

From stdpp Require Import base option list strings pretty gmap.
From Stdlib Require Import ZArith Lia Ascii String.

Local Open Scope Z_scope.
Set Warnings "-register-all".

(** ** JavaScript values *)

(** The numbers of the handler: an integer, meant within the safe range,
    or [NaN]. *)
Inductive JSNumber :=
  | JNum (z : Z)
  | NaN.

(** [Number.MAX_SAFE_INTEGER] and the range in which the integers of the
    model are those of the language. *)
Definition MAX_SAFE_INTEGER : Z := 2 ^ 53 - 1.

Definition safe_integer (z : Z) : Prop :=
  - MAX_SAFE_INTEGER <= z <= MAX_SAFE_INTEGER.

(** A number the model computes with exactly: [NaN], or a safe integer. *)
Definition safe_number (n : JSNumber) : Prop :=
  match n with
  | JNum z => safe_integer z
  | NaN => True
  end.

Inductive JSValue :=
  | VUndefined
  | VNull
  | VBool (b : bool)
  | VNum (n : JSNumber)
  | VStr (s : string)
  | VArr (xs : list JSValue)
  | VObj (fields : list (string * JSValue)).

(** [Number.prototype.toString] on a safe integer or [NaN]: the decimal
    digits, with a minus sign in front of a negative number.  (From 1e21 on
    the language writes an exponent, and above 2^53 not every digit; the
    properties below do not go there.) *)
Definition number_toString (n : JSNumber) : string :=
  match n with
  | JNum z => pretty z
  | NaN => "NaN"
  end.

(** [sep.join(parts)] *)
Fixpoint join (sep : string) (parts : list string) : string :=
  match parts with
  | [] => EmptyString
  | [p] => p
  | p :: ps => p +:+ sep +:+ join sep ps
  end.

(** The abstract operation ToString. *)
Fixpoint js_toString (v : JSValue) : string :=
  match v with
  | VUndefined => "undefined"
  | VNull => "null"
  | VBool true => "true"
  | VBool false => "false"
  | VNum n => number_toString n
  | VStr s => s
  | VArr xs =>
      join ","
        (map (fun x => match x with
                       | VUndefined | VNull => EmptyString
                       | _ => js_toString x
                       end) xs)
  | VObj _ => "[object Object]"
  end.

(** The abstract operation ToBoolean. *)
Definition truthy (v : JSValue) : bool :=
  match v with
  | VUndefined | VNull => false
  | VBool b => b
  | VNum (JNum z) => negb (z =? 0)
  | VNum NaN => false
  | VStr s => negb (String.eqb s EmptyString)
  | VArr _ | VObj _ => true
  end.

(** [a || b] *)
Definition js_or (a b : JSValue) : JSValue := if truthy a then a else b.

(** [a >= b] on numbers: every comparison with [NaN] is false. *)
Definition js_ge (a b : JSNumber) : bool :=
  match a, b with
  | JNum x, JNum y => y <=? x
  | _, _ => false
  end.

(** [a - b] and [a + b] on numbers. *)
Definition js_sub (a b : JSNumber) : JSNumber :=
  match a, b with
  | JNum x, JNum y => JNum (x - y)
  | _, _ => NaN
  end.

Definition js_add (a b : JSNumber) : JSNumber :=
  match a, b with
  | JNum x, JNum y => JNum (x + y)
  | _, _ => NaN
  end.

(** [Math.max(a, b)]: [NaN] as soon as one argument is [NaN]. *)
Definition Math_max (a b : JSNumber) : JSNumber :=
  match a, b with
  | JNum x, JNum y => JNum (Z.max x y)
  | _, _ => NaN
  end.

(** ** Strings *)

Definition char_code (c : ascii) : Z := Z.of_N (N_of_ascii c).

(** White space and line terminators of the language, among the code
    units below U+0100: TAB, LF, VT, FF, CR, SP and NBSP. *)
Definition is_js_space (c : ascii) : bool :=
  let n := char_code c in
  ((9 <=? n) && (n <=? 13)) || (n =? 32) || (n =? 160).

Fixpoint trimStart (s : string) : string :=
  match s with
  | String c s' => if is_js_space c then trimStart s' else s
  | EmptyString => EmptyString
  end.

Definition trimEnd (s : string) : string :=
  String.rev (trimStart (String.rev s)).

(** [s.trim()] *)
Definition trim (s : string) : string := trimEnd (trimStart s).

(** [s.split(sep)[0]] for a one-character separator: the part of [s]
    before the first occurrence of [sep], all of [s] when there is none. *)
Fixpoint split_first (sep : ascii) (s : string) : string :=
  match s with
  | EmptyString => EmptyString
  | String c s' =>
      if Ascii.eqb c sep then EmptyString else String c (split_first sep s')
  end.

(** ** [parseInt] *)

(** The value of a digit in the largest radix: [0-9], [a-z] and [A-Z]. *)
Definition digit_value (c : ascii) : option Z :=
  let n := char_code c in
  if (48 <=? n) && (n <=? 57) then Some (n - 48)
  else if (97 <=? n) && (n <=? 122) then Some (n - 87)
  else if (65 <=? n) && (n <=? 90) then Some (n - 55)
  else None.

Definition radix_digit (R : Z) (c : ascii) : option Z :=
  match digit_value c with
  | Some d => if d <? R then Some d else None
  | None => None
  end.

(** The digits of the longest prefix of [s] made of radix-[R] digits. *)
Fixpoint digits_prefix (R : Z) (s : string) : list Z :=
  match s with
  | EmptyString => []
  | String c s' =>
      match radix_digit R c with
      | Some d => d :: digits_prefix R s'
      | None => []
      end
  end.

Definition digits_to_int (R : Z) (ds : list Z) : Z :=
  fold_left (fun acc d => acc * R + d) ds 0.

(** [parseInt(string)] with no radix argument, on the string form of its
    argument: leading white space is skipped, then a sign, then the prefix
    [0x] or [0X] selects radix 16 (radix 10 otherwise); the result is [NaN]
    when no digit follows. *)
Definition parseInt_string (input : string) : JSNumber :=
  let s := trimStart input in
  let '(sign, s) :=
    match s with
    | String "-" r => (-1, r)
    | String "+" r => (1, r)
    | _ => (1, s)
    end in
  let '(R, s) :=
    match s with
    | String "0" (String "x" r) => (16, r)
    | String "0" (String "X" r) => (16, r)
    | _ => (10, s)
    end in
  match digits_prefix R s with
  | [] => NaN
  | ds => JNum (sign * digits_to_int R ds)
  end.

Definition parseInt (v : JSValue) : JSNumber := parseInt_string (js_toString v).

(** ** [JSON.stringify] *)

Definition dquote : ascii := ascii_of_nat 34.
Definition backslash : ascii := ascii_of_nat 92.

Definition hex_digit (n : Z) : ascii :=
  if n <? 10 then ascii_of_N (Z.to_N (48 + n)) else ascii_of_N (Z.to_N (87 + n)).

(** One code unit inside a JSON string literal: the quote and the backslash
    are escaped, the control characters use their short escape or the
    four-digit form. *)
Definition quote_char (c : ascii) : string :=
  let n := char_code c in
  if n =? 8 then "\b"
  else if n =? 9 then "\t"
  else if n =? 10 then "\n"
  else if n =? 12 then "\f"
  else if n =? 13 then "\r"
  else if n =? 34 then String backslash (String dquote EmptyString)
  else if n =? 92 then String backslash (String backslash EmptyString)
  else if n <? 32 then
    "\u00" +:+ String (hex_digit (n / 16)) (String (hex_digit (n mod 16)) EmptyString)
  else String c EmptyString.

Fixpoint quote_chars (s : string) : string :=
  match s with
  | EmptyString => EmptyString
  | String c s' => quote_char c +:+ quote_chars s'
  end.

Definition quote_string (s : string) : string :=
  String dquote (quote_chars s +:+ String dquote EmptyString).

(** [JSON.stringify(v)]: [None] stands for the result [undefined].  An
    [undefined] element of an array is written [null], an [undefined]
    property of an object is left out, and [NaN] is written [null].  The
    values are those of [JSValue]: numbers are integers, written in
    decimal digits, and strings are made of code units up to U+00FF. *)
Fixpoint JSON_stringify (v : JSValue) : option string :=
  match v with
  | VUndefined => None
  | VNull => Some "null"
  | VBool true => Some "true"
  | VBool false => Some "false"
  | VNum (JNum z) => Some (pretty z)
  | VNum NaN => Some "null"
  | VStr s => Some (quote_string s)
  | VArr xs =>
      Some ("[" +:+ join "," (map (fun x => match JSON_stringify x with
                                            | Some t => t
                                            | None => "null"
                                            end) xs) +:+ "]")
  | VObj fields =>
      Some ("{" +:+
            join "," (omap (fun kv =>
                              match JSON_stringify (snd kv) with
                              | Some sv => Some (quote_string (fst kv) +:+ ":" +:+ sv)
                              | None => None
                              end) fields) +:+ "}")
  end.

(** Property access [obj[name]] on a value. *)
Fixpoint assoc (name : string) (fields : list (string * JSValue)) : JSValue :=
  match fields with
  | [] => VUndefined
  | (k, v) :: rest => if String.eqb k name then v else assoc name rest
  end.

Definition prop (name : string) (v : JSValue) : JSValue :=
  match v with
  | VObj fields => assoc name fields
  | _ => VUndefined
  end.

(** ** Reading back what [JSON.stringify] wrote

    A reader for the compact text of [JSON.stringify].  The handler does
    not call it: it is the receiving side of the upstream call, used to
    state that the forwarded text still holds the whole inbound value. *)

Fixpoint strip_prefix (p s : string) : option string :=
  match p, s with
  | EmptyString, _ => Some s
  | String a p', String b s' => if Ascii.eqb a b then strip_prefix p' s' else None
  | String _ _, EmptyString => None
  end.

Fixpoint drop_digits (s : string) : string :=
  match s with
  | String c s' =>
      match radix_digit 10 c with
      | Some _ => drop_digits s'
      | None => s
      end
  | EmptyString => EmptyString
  end.

Definition read_number (s : string) : option (JSValue * string) :=
  let '(sign, s1) :=
    match s with
    | String "-" r => (-1, r)
    | _ => (1, s)
    end in
  match digits_prefix 10 s1 with
  | [] => None
  | ds => Some (VNum (JNum (sign * digits_to_int 10 ds)), drop_digits s1)
  end.

Definition unescape (e : ascii) : option ascii :=
  let n := char_code e in
  if n =? 98 then Some (ascii_of_nat 8)
  else if n =? 116 then Some (ascii_of_nat 9)
  else if n =? 110 then Some (ascii_of_nat 10)
  else if n =? 102 then Some (ascii_of_nat 12)
  else if n =? 114 then Some (ascii_of_nat 13)
  else if n =? 34 then Some dquote
  else if n =? 92 then Some backslash
  else None.

Definition push (c : ascii) (r : option (string * string)) : option (string * string) :=
  match r with
  | Some (s, rest) => Some (String c s, rest)
  | None => None
  end.

(** The characters of a string literal, after the opening quote, and what
    follows the closing quote. *)
Fixpoint read_chars (s : string) : option (string * string) :=
  match s with
  | EmptyString => None
  | String c s1 =>
      if Ascii.eqb c dquote then Some (EmptyString, s1)
      else if Ascii.eqb c backslash then
        match s1 with
        | String e s2 =>
            match unescape e with
            | Some u => push u (read_chars s2)
            | None =>
                match s2 with
                | String z1 (String z2 (String h (String l s6))) =>
                    match radix_digit 16 h, radix_digit 16 l with
                    | Some a, Some b =>
                        if Ascii.eqb e "u" && Ascii.eqb z1 "0" && Ascii.eqb z2 "0"
                        then push (ascii_of_N (Z.to_N (16 * a + b))) (read_chars s6)
                        else None
                    | _, _ => None
                    end
                | _ => None
                end
            end
        | EmptyString => None
        end
      else push c (read_chars s1)
  end.

(** The elements of an array after the opening bracket, read with [rv]. *)
Fixpoint read_elems (rv : string -> option (JSValue * string)) (more : nat)
  (s : string) : option (list JSValue * string) :=
  match more with
  | O => None
  | S more' =>
      match rv s with
      | Some (v, String sep r) =>
          if Ascii.eqb sep "]" then Some ([v], r)
          else if Ascii.eqb sep "," then
            match read_elems rv more' r with
            | Some (vs, r') => Some (v :: vs, r')
            | None => None
            end
          else None
      | _ => None
      end
  end.

(** The properties of an object after the opening brace. *)
Fixpoint read_fields (rv : string -> option (JSValue * string)) (more : nat)
  (s : string) : option (list (string * JSValue) * string) :=
  match more with
  | O => None
  | S more' =>
      match s with
      | String q s1 =>
          if Ascii.eqb q dquote then
            match read_chars s1 with
            | Some (k, String colon s2) =>
                if Ascii.eqb colon ":" then
                  match rv s2 with
                  | Some (v, String sep r) =>
                      if Ascii.eqb sep "}" then Some ([(k, v)], r)
                      else if Ascii.eqb sep "," then
                        match read_fields rv more' r with
                        | Some (kvs, r') => Some ((k, v) :: kvs, r')
                        | None => None
                        end
                      else None
                  | _ => None
                  end
                else None
            | _ => None
            end
          else None
      | EmptyString => None
      end
  end.

(** A value at the head of [s] and the rest of [s]; [fuel] bounds the
    nesting. *)
Fixpoint read_value (fuel : nat) (s : string) : option (JSValue * string) :=
  match fuel with
  | O => None
  | S fuel' =>
      match s with
      | EmptyString => None
      | String c s1 =>
          if Ascii.eqb c "n" then
            match strip_prefix "ull" s1 with Some r => Some (VNull, r) | None => None end
          else if Ascii.eqb c "t" then
            match strip_prefix "rue" s1 with Some r => Some (VBool true, r) | None => None end
          else if Ascii.eqb c "f" then
            match strip_prefix "alse" s1 with Some r => Some (VBool false, r) | None => None end
          else if Ascii.eqb c dquote then
            match read_chars s1 with Some (x, r) => Some (VStr x, r) | None => None end
          else if Ascii.eqb c "[" then
            match read_elems (read_value fuel') (String.length s1) s1 with
            | Some (vs, r) => Some (VArr vs, r)
            | None =>
                match s1 with
                | String "]" r => Some (VArr [], r)
                | _ => None
                end
            end
          else if Ascii.eqb c "{" then
            match read_fields (read_value fuel') (String.length s1) s1 with
            | Some (kvs, r) => Some (VObj kvs, r)
            | None =>
                match s1 with
                | String "}" r => Some (VObj [], r)
                | _ => None
                end
            end
          else read_number s
      end
  end.

(** A reader for the text that [JSON.stringify] writes. *)
Definition JSON_read (s : string) : option JSValue :=
  match read_value (String.length s) s with
  | Some (v, EmptyString) => Some v
  | _ => None
  end.

(** The values [JSON.parse] produces: no [undefined] and no [NaN]
    anywhere. *)
Fixpoint is_json (v : JSValue) : bool :=
  match v with
  | VUndefined => false
  | VNum NaN => false
  | VArr xs => forallb is_json xs
  | VObj fields => forallb (fun kv => is_json (snd kv)) fields
  | _ => true
  end.

(** The nesting depth of a value. *)
Fixpoint depth (v : JSValue) : nat :=
  match v with
  | VArr xs => S (fold_right (fun x acc => Nat.max (depth x) acc) O xs)
  | VObj fields => S (fold_right (fun kv acc => Nat.max (depth (snd kv)) acc) O fields)
  | _ => O
  end.

(** [v] is written by [JSON.stringify] as a text that is longer than [v]
    is deep and that [read_value] reads back, in front of anything but a
    digit. *)
Definition reads_back (v : JSValue) : Prop :=
  exists t,
    JSON_stringify v = Some t /\
    (depth v < String.length t)%nat /\
    forall fuel rest,
      (depth v < fuel)%nat ->
      digits_prefix 10 rest = [] ->
      read_value fuel (t +:+ rest) = Some (v, rest).

(** ** The outside world *)

(** A thrown value; only ever caught and logged. *)
Definition JSError := string.

(** The outcome of an awaited call. *)
Inductive Completion (A : Type) :=
  | Normal (a : A)
  | Throw (e : JSError).
Arguments Normal {A} a.
Arguments Throw {A} e.

(** [process.env] *)
Record Env := {
  UPSTASH_REDIS_REST_URL : option string;
  UPSTASH_REDIS_REST_TOKEN : option string;
  ANTHROPIC_API_KEY : option string
}.

(** The value of [process.env.NAME]: a string, or [undefined]. *)
Definition env_value (x : option string) : JSValue :=
  match x with
  | Some s => VStr s
  | None => VUndefined
  end.

(** The inbound request: [req.method], [req.headers] (names in lower case)
    and [req.body]. *)
Record Request := {
  method : string;
  headers : gmap string string;
  body : JSValue
}.

(** The argument of [fetch] and what it resolves to. *)
Record FetchRequest := {
  fetch_url : string;
  fetch_method : string;
  fetch_headers : list (string * string);
  fetch_body : option string
}.

Record FetchResponse := {
  fr_status : Z;
  fr_text : Completion string
}.

(** [response.ok]: the status is in the range 200-299. *)
Definition fr_ok (r : FetchResponse) : bool :=
  (200 <=? fr_status r) && (fr_status r <=? 299).

(** An entry of the counter store: the value and the expiry, in seconds,
    given when it was written. *)
Record RedisEntry := {
  entry_value : JSValue;
  entry_ex : option Z
}.

(** What the handler does to the outside world, one constructor per call:
    [redis.get(key)], [redis.set(key, value, { ex })], [fetch(url, init)]
    and [console.error(msg, e)].  A call to the store client is one effect
    even if the client sends several requests to carry it out. *)
Inductive Effect :=
  | RedisGet (key : string)
  | RedisSet (key : string) (value : JSValue) (ex : Z)
  | Fetch (r : FetchRequest)
  | ConsoleError (msg : string) (e : JSError).

(** What the handler cannot control: the clock, whether the store answers,
    and what the upstream API does with a request. *)
Record Services := {
  now_iso : string;                          (* new Date().toISOString() *)
  redis_get_fault : option JSError;
  redis_set_fault : option JSError;
  upstream : FetchRequest -> Completion FetchResponse
}.

(** What the handler changes: the store and the effects performed so far,
    oldest first. *)
Record World := {
  store : gmap string RedisEntry;
  effects : list Effect
}.

Definition perform (e : Effect) (w : World) : World :=
  {| store := store w; effects := effects w ++ [e] |}.

(** ** The monad of the handler *)

Definition M (A : Type) : Type := World -> Completion A * World.

Global Instance M_ret : MRet M := fun A a w => (Normal a, w).
Global Instance M_bind : MBind M := fun A B f m w =>
  match m w with
  | (Normal a, w') => f a w'
  | (Throw e, w') => (Throw e, w')
  end.

(** [try { body } catch (e) { handle(e) }] *)
Definition try_catch {A} (body : M A) (handle : JSError -> M A) : M A :=
  fun w =>
    match body w with
    | (Normal a, w') => (Normal a, w')
    | (Throw e, w') => handle e w'
    end.

(** What the store answers to [GET key]: [null] for a missing key. *)
Definition stored_value (st : gmap string RedisEntry) (key : string) : JSValue :=
  match st !! key with
  | Some en => entry_value en
  | None => VNull
  end.

(** [await redis.get(key)]: one call to the client, which answers with the
    stored value or throws. *)
Definition redis_get (sv : Services) (key : string) : M JSValue := fun w =>
  match redis_get_fault sv with
  | Some e => (Throw e, perform (RedisGet key) w)
  | None =>
      (Normal (stored_value (store w) key), perform (RedisGet key) w)
  end.

(** [await redis.set(key, value, { ex })]: one call to the client.  The
    store keeps the value it is given; [redis_set_fault] stands for a write
    that fails before the store applies it, so that a write that throws
    leaves the store as it was. *)
Definition redis_set (sv : Services) (key : string) (value : JSValue) (ex : Z)
  : M unit := fun w =>
  match redis_set_fault sv with
  | Some e => (Throw e, perform (RedisSet key value ex) w)
  | None =>
      (Normal tt,
       {| store := <[key := {| entry_value := value; entry_ex := Some ex |}]> (store w);
          effects := effects w ++ [RedisSet key value ex] |})
  end.

(** [await fetch(url, init)] *)
Definition fetch (sv : Services) (r : FetchRequest) : M FetchResponse := fun w =>
  (upstream sv r, perform (Fetch r) w).

(** [await response.text()] *)
Definition text (r : FetchResponse) : M string := fun w => (fr_text r, w).

(** [console.error(msg, e)] *)
Definition console_error (msg : string) (e : JSError) : M unit := fun w =>
  (Normal tt, perform (ConsoleError msg e) w).

(** ** The response object [res] *)

Inductive Payload :=
  | NoBody                       (* res.end() *)
  | JsonBody (v : JSValue)       (* res.json(v) *)
  | TextBody (s : string).       (* res.send(s) *)

Record ServerResponse := {
  statusCode : Z;
  res_headers : list (string * string);
  payload : Payload
}.

Definition new_response : ServerResponse :=
  {| statusCode := 200; res_headers := []; payload := NoBody |}.

Definition lower_char (c : ascii) : ascii :=
  let n := char_code c in
  if (65 <=? n) && (n <=? 90) then ascii_of_N (Z.to_N (n + 32)) else c.

Fixpoint toLowerCase (s : string) : string :=
  match s with
  | EmptyString => EmptyString
  | String c s' => String (lower_char c) (toLowerCase s')
  end.

(** Header names are compared without regard to case. *)
Definition same_header (a b : string) : bool :=
  String.eqb (toLowerCase a) (toLowerCase b).

(** [res.setHeader(name, value)] replaces an earlier value of the header. *)
Definition setHeader (name value : string) (res : ServerResponse) : ServerResponse :=
  {| statusCode := statusCode res;
     res_headers :=
       List.filter (fun h => negb (same_header (fst h) name)) (res_headers res)
       ++ [(name, value)];
     payload := payload res |}.

(** [res.getHeader(name)] *)
Definition getHeader (name : string) (res : ServerResponse) : option string :=
  snd <$> List.find (fun h => same_header (fst h) name) (res_headers res).

(** [res.status(code)] *)
Definition status (code : Z) (res : ServerResponse) : ServerResponse :=
  {| statusCode := code; res_headers := res_headers res; payload := payload res |}.

Definition json (v : JSValue) (res : ServerResponse) : ServerResponse :=
  {| statusCode := statusCode res; res_headers := res_headers res;
     payload := JsonBody v |}.

Definition send (s : string) (res : ServerResponse) : ServerResponse :=
  {| statusCode := statusCode res; res_headers := res_headers res;
     payload := TextBody s |}.

Definition end_ (res : ServerResponse) : ServerResponse :=
  {| statusCode := statusCode res; res_headers := res_headers res;
     payload := NoBody |}.

(** ** [api/anthropic.js] *)

Definition DAILY_LIMIT : Z := 10.

Record Redis := {
  url : string;
  token : string
}.

(** [function getRedis()]: [null] unless both configuration values are
    truthy; the constructor [new Redis({ url, token })] is taken to return
    a client for any two non-empty strings. *)
Definition getRedis (env : Env) : option Redis :=
  match UPSTASH_REDIS_REST_URL env, UPSTASH_REDIS_REST_TOKEN env with
  | Some u, Some t =>
      if truthy (VStr u) && truthy (VStr t)
      then Some {| url := u; token := t |}
      else None
  | _, _ => None
  end.

(** [req.headers['x-client-id'] || 'unknown'] *)
Definition clientId (req : Request) : JSValue :=
  js_or (env_value (headers req !! "x-client-id")) (VStr "unknown").

(** [req.headers['x-forwarded-for']?.split(',')[0]?.trim() || 'unknown'] *)
Definition clientIP (req : Request) : JSValue :=
  js_or (env_value ((fun s => trim (split_first ","%char s))
                      <$> headers req !! "x-forwarded-for"))
        (VStr "unknown").

Definition identifier (req : Request) : string :=
  js_toString (clientId req) +:+ ":" +:+ js_toString (clientIP req).

(** [new Date().toISOString().split('T')[0]] *)
Definition today (sv : Services) : string := split_first "T"%char (now_iso sv).

Definition usage_key (sv : Services) (req : Request) : string :=
  "usage:" +:+ identifier req +:+ ":" +:+ today sv.

(** The argument of the call to [fetch]. *)
Definition upstream_request (env : Env) (req : Request) : FetchRequest :=
  {| fetch_url := "https://api.anthropic.com/v1/messages";
     fetch_method := "POST";
     fetch_headers :=
       [("Content-Type", "application/json");
        ("x-api-key", js_toString (env_value (ANTHROPIC_API_KEY env)));
        ("anthropic-version", "2023-06-01")];
     fetch_body := JSON_stringify (body req) |}.

(** The body of the 429 response. *)
Definition rate_limit_error (currentUsage : JSNumber) : JSValue :=
  VObj [("error",
         VObj [("type", VStr "rate_limit_exceeded");
               ("message",
                VStr ("Daily limit of " +:+ number_toString (JNum DAILY_LIMIT)
                      +:+ " quizzes reached. Please try again tomorrow."));
               ("limit", VNum (JNum DAILY_LIMIT));
               ("used", VNum currentUsage);
               ("resets", VStr "midnight UTC")])].

(** [export default async function handler(req, res)] *)
Definition handler (env : Env) (sv : Services) (req : Request) : M ServerResponse :=
  let res := new_response in
  if String.eqb (method req) "OPTIONS" then
    let res := setHeader "Access-Control-Allow-Origin" "*" res in
    let res := setHeader "Access-Control-Allow-Methods" "POST, OPTIONS" res in
    let res := setHeader "Access-Control-Allow-Headers" "Content-Type, X-Client-ID" res in
    mret (end_ (status 200 res))
  else if negb (String.eqb (method req) "POST") then
    mret (json (VObj [("error", VStr "Method not allowed")]) (status 405 res))
  else
    let key := usage_key sv req in
    let redis := getRedis env in
    currentUsage ←
      match redis with
      | Some _ =>
          try_catch
            (v ← redis_get sv key; mret (parseInt (js_or v (VStr "0"))))
            (fun e => console_error "Redis read error:" e;; mret (JNum 0))
      | None => mret (JNum 0)
      end;
    if js_ge currentUsage (JNum DAILY_LIMIT) then
      mret (json (rate_limit_error currentUsage)
              (setHeader "X-RateLimit-Remaining" "0"
                 (setHeader "X-RateLimit-Limit" (number_toString (JNum DAILY_LIMIT))
                    (status 429 res))))
    else
      fetched ←
        try_catch
          (r ← fetch sv (upstream_request env req); mret (Some r))
          (fun e => console_error "Anthropic API error:" e;; mret None);
      match fetched with
      | None => mret (json (VObj [("error", VStr "Failed to reach API")]) (status 502 res))
      | Some anthropicResponse =>
          (if fr_ok anthropicResponse && bool_decide (is_Some redis) then
             try_catch
               (redis_set sv key (VNum (js_add currentUsage (JNum 1))) 86400)
               (fun e => console_error "Redis write error:" e)
           else mret tt);;
          responseBody ← text anthropicResponse;
          let remaining := js_sub (js_sub (JNum DAILY_LIMIT) currentUsage) (JNum 1) in
          let res := setHeader "X-RateLimit-Limit" (number_toString (JNum DAILY_LIMIT)) res in
          let res := setHeader "X-RateLimit-Remaining"
                       (number_toString (Math_max (JNum 0) remaining)) res in
          mret (send responseBody (status (fr_status anthropicResponse) res))
      end.

(** ** Vocabulary of the properties *)

(** One invocation of the handler, on a store with content [st]. *)
Definition serve (env : Env) (sv : Services) (st : gmap string RedisEntry)
  (req : Request) : Completion ServerResponse * World :=
  handler env sv req {| store := st; effects := [] |}.

(** The calls to [fetch] among a list of effects. *)
Definition upstream_calls (es : list Effect) : list FetchRequest :=
  omap (fun e => match e with Fetch r => Some r | _ => None end) es.

(** The calls to the store client among a list of effects. *)
Definition store_accesses (es : list Effect) : list Effect :=
  List.filter (fun e => match e with
                        | RedisGet _ | RedisSet _ _ _ => true
                        | _ => false
                        end) es.

Definition store_writes (es : list Effect) : list Effect :=
  List.filter (fun e => match e with RedisSet _ _ _ => true | _ => false end) es.

(** What was written to the console. *)
Definition console (es : list Effect) : list (string * JSError) :=
  omap (fun e => match e with ConsoleError m x => Some (m, x) | _ => None end) es.

(** The count the handler works with: the parsed answer of the store, and
    zero when there is no store or the read throws. *)
Definition usage_seen (env : Env) (sv : Services) (st : gmap string RedisEntry)
  (req : Request) : JSNumber :=
  match getRedis env, redis_get_fault sv with
  | Some _, None => parseInt (js_or (stored_value st (usage_key sv req)) (VStr "0"))
  | _, _ => JNum 0
  end.

(** The store is configured and answers reads, and it records the count
    [u] for the caller of [req] today: the number [u] under the caller's
    key, or nothing under that key when [u] is zero. *)
Definition recorded_usage (env : Env) (sv : Services) (st : gmap string RedisEntry)
  (req : Request) (u : Z) : Prop :=
  is_Some (getRedis env) /\ redis_get_fault sv = None /\
  ((st !! usage_key sv req = None /\ u = 0) \/
   (exists ex, st !! usage_key sv req
               = Some {| entry_value := VNum (JNum u); entry_ex := ex |})).

(** The same services with another behaviour of store writes. *)
Definition with_set_fault (f : option JSError) (sv : Services) : Services :=
  {| now_iso := now_iso sv; redis_get_fault := redis_get_fault sv;
     redis_set_fault := f; upstream := upstream sv |}.

(** The same configuration with another API key. *)
Definition with_api_key (k : option string) (env : Env) : Env :=
  {| UPSTASH_REDIS_REST_URL := UPSTASH_REDIS_REST_URL env;
     UPSTASH_REDIS_REST_TOKEN := UPSTASH_REDIS_REST_TOKEN env;
     ANTHROPIC_API_KEY := k |}.

(** The value of a header of the outbound call. *)
Definition fetch_header (name : string) (r : FetchRequest) : option string :=
  snd <$> List.find (fun h => same_header (fst h) name) (fetch_headers r).

(** The effects of reading the count (lines 45-54 of the handler). *)
Definition read_effects (env : Env) (sv : Services) (req : Request) : list Effect :=
  match getRedis env with
  | None => []
  | Some _ =>
      RedisGet (usage_key sv req)
      :: match redis_get_fault sv with
         | Some e => [ConsoleError "Redis read error:" e]
         | None => []
         end
  end.

(** The three responses of the POST path. *)
Definition limited_response (currentUsage : JSNumber) : ServerResponse :=
  {| statusCode := 429;
     res_headers := [("X-RateLimit-Limit", "10"); ("X-RateLimit-Remaining", "0")];
     payload := JsonBody (rate_limit_error currentUsage) |}.

Definition unreachable_response : ServerResponse :=
  {| statusCode := 502;
     res_headers := [];
     payload := JsonBody (VObj [("error", VStr "Failed to reach API")]) |}.

Definition relayed_response (currentUsage : JSNumber) (r : FetchResponse)
  (responseBody : string) : ServerResponse :=
  {| statusCode := fr_status r;
     res_headers :=
       [("X-RateLimit-Limit", "10");
        ("X-RateLimit-Remaining",
         number_toString
           (Math_max (JNum 0)
              (js_sub (js_sub (JNum DAILY_LIMIT) currentUsage) (JNum 1))))];
     payload := TextBody responseBody |}.

(** The world after the upstream call resolved to [r] (lines 89-95). *)
Definition world_after_call (env : Env) (sv : Services) (st : gmap string RedisEntry)
  (req : Request) (r : FetchResponse) : World :=
  let key := usage_key sv req in
  let call := Fetch (upstream_request env req) in
  let value := VNum (js_add (usage_seen env sv st req) (JNum 1)) in
  if fr_ok r && bool_decide (is_Some (getRedis env)) then
    match redis_set_fault sv with
    | Some e =>
        {| store := st;
           effects := read_effects env sv req
                      ++ [call; RedisSet key value 86400;
                          ConsoleError "Redis write error:" e] |}
    | None =>
        {| store := <[key := {| entry_value := value; entry_ex := Some 86400 |}]> st;
           effects := read_effects env sv req ++ [call; RedisSet key value 86400] |}
    end
  else {| store := st; effects := read_effects env sv req ++ [call] |}.

(** The outcome of a POST request, path by path. *)
Definition post_outcome (env : Env) (sv : Services) (st : gmap string RedisEntry)
  (req : Request) : Completion ServerResponse * World :=
  let currentUsage := usage_seen env sv st req in
  if js_ge currentUsage (JNum DAILY_LIMIT) then
    (Normal (limited_response currentUsage),
     {| store := st; effects := read_effects env sv req |})
  else
    match upstream sv (upstream_request env req) with
    | Throw e =>
        (Normal unreachable_response,
         {| store := st;
            effects := read_effects env sv req
                       ++ [Fetch (upstream_request env req);
                           ConsoleError "Anthropic API error:" e] |})
    | Normal r =>
        (match fr_text r with
         | Normal b => Normal (relayed_response currentUsage r b)
         | Throw e => Throw e
         end,
         world_after_call env sv st req r)
    end.

(** Sample data. *)
Definition sample_env : Env :=
  {| UPSTASH_REDIS_REST_URL := Some "https://store.example";
     UPSTASH_REDIS_REST_TOKEN := Some "store-token";
     ANTHROPIC_API_KEY := Some "sk-server-key" |}.

Definition sample_request : Request :=
  {| method := "POST";
     headers := {[ "x-client-id" := "fp-1"; "x-forwarded-for" := "203.0.113.7, 10.0.0.1" ]};
     body := VObj [("model", VStr "quiz"); ("max_tokens", VNum (JNum 1024))] |}.

(** The same configuration without the URL of the store. *)
Definition unconfigured_env : Env :=
  {| UPSTASH_REDIS_REST_URL := None;
     UPSTASH_REDIS_REST_TOKEN := Some "store-token";
     ANTHROPIC_API_KEY := Some "sk-server-key" |}.

Definition preflight_request : Request :=
  {| method := "OPTIONS"; headers := ∅; body := VUndefined |}.

Definition sample_reply : FetchResponse :=
  {| fr_status := 200; fr_text := Normal "{}" |}.

(** An upstream that answers every call with [sample_reply], and one that
    cannot be reached. *)
Definition sample_services : Services :=
  {| now_iso := "2026-11-02T10:15:30.000Z";
     redis_get_fault := None;
     redis_set_fault := None;
     upstream := fun _ => Normal sample_reply |}.

Definition unreachable_services : Services :=
  {| now_iso := "2026-11-02T10:15:30.000Z";
     redis_get_fault := None;
     redis_set_fault := None;
     upstream := fun _ => Throw "ECONNRESET" |}.

Definition sample_key : string := "usage:fp-1:203.0.113.7:2026-11-02".

(** A store that holds [v] under the key of [sample_request]. *)
Definition sample_store (v : JSValue) : gmap string RedisEntry :=
  {[ sample_key := {| entry_value := v; entry_ex := Some 86400 |} ]}.

(** ** Phases of the handler, and several requests

    The handler gives control back at each [await].  Between the read of
    the count and what follows, another invocation can run; the two parts
    are named here, and [handler] is their composition on a POST request
    ([handler_phases]). *)

(** Lines 47-54: the count, read from the store. *)
Definition read_usage (env : Env) (sv : Services) (req : Request) : M JSNumber :=
  match getRedis env with
  | Some _ =>
      try_catch
        (v ← redis_get sv (usage_key sv req); mret (parseInt (js_or v (VStr "0"))))
        (fun e => console_error "Redis read error:" e;; mret (JNum 0))
  | None => mret (JNum 0)
  end.

(** Lines 56-103: what a POST request gets once the count is known. *)
Definition respond (env : Env) (sv : Services) (req : Request)
  (currentUsage : JSNumber) : M ServerResponse :=
  let res := new_response in
  let key := usage_key sv req in
  let redis := getRedis env in
  if js_ge currentUsage (JNum DAILY_LIMIT) then
    mret (json (rate_limit_error currentUsage)
            (setHeader "X-RateLimit-Remaining" "0"
               (setHeader "X-RateLimit-Limit" (number_toString (JNum DAILY_LIMIT))
                  (status 429 res))))
  else
    fetched ←
      try_catch
        (r ← fetch sv (upstream_request env req); mret (Some r))
        (fun e => console_error "Anthropic API error:" e;; mret None);
    match fetched with
    | None => mret (json (VObj [("error", VStr "Failed to reach API")]) (status 502 res))
    | Some anthropicResponse =>
        (if fr_ok anthropicResponse && bool_decide (is_Some redis) then
           try_catch
             (redis_set sv key (VNum (js_add currentUsage (JNum 1))) 86400)
             (fun e => console_error "Redis write error:" e)
         else mret tt);;
        responseBody ← text anthropicResponse;
        let remaining := js_sub (js_sub (JNum DAILY_LIMIT) currentUsage) (JNum 1) in
        let res := setHeader "X-RateLimit-Limit" (number_toString (JNum DAILY_LIMIT)) res in
        let res := setHeader "X-RateLimit-Remaining"
                     (number_toString (Math_max (JNum 0) remaining)) res in
        mret (send responseBody (status (fr_status anthropicResponse) res))
    end.

(** Two POST requests whose reads both complete before either goes on:
    one of the schedules the event loop allows. *)
Definition interleaved (env : Env) (sv : Services) (reqA reqB : Request)
  : M (ServerResponse * ServerResponse) :=
  usageA ← read_usage env sv reqA;
  usageB ← read_usage env sv reqB;
  resA ← respond env sv reqA usageA;
  resB ← respond env sv reqB usageB;
  mret (resA, resB).

(** Requests served one after the other, each with the services of its
    moment and on the store the previous one left: the outcomes, oldest
    first, and the final store. *)
Fixpoint serve_all (env : Env) (st : gmap string RedisEntry)
  (reqs : list (Services * Request))
  : list (Completion ServerResponse) * gmap string RedisEntry :=
  match reqs with
  | [] => ([], st)
  | (sv, req) :: rest =>
      let out := serve env sv st req in
      let later := serve_all env (store out.2) rest in
      (out.1 :: later.1, later.2)
  end.

(** The entry the handler writes for the count [u]. *)
Definition counter_entry (u : Z) : RedisEntry :=
  {| entry_value := VNum (JNum u); entry_ex := Some 86400 |}.

(** Every counter of the store is an integer from 1 to the daily limit. *)
Definition counts_within_limit (st : gmap string RedisEntry) : Prop :=
  forall k en, st !! k = Some en ->
    exists u, entry_value en = VNum (JNum u) /\ 1 <= u <= DAILY_LIMIT.

(** The request [req] with the header [name] set to [value]. *)
Definition with_header (name value : string) (req : Request) : Request :=
  {| method := method req;
     headers := <[name := value]> (headers req);
     body := body req |}.

(** [c] occurs in [s]. *)
Fixpoint occurs (c : ascii) (s : string) : bool :=
  match s with
  | EmptyString => false
  | String x s' => Ascii.eqb x c || occurs c s'
  end.

(** [s] is made of white space only. *)
Fixpoint blank (s : string) : bool :=
  match s with
  | EmptyString => true
  | String c s' => is_js_space c && blank s'
  end.

(** A header value that is missing, or present but empty. *)
Definition absent_or_empty (x : option string) : Prop :=
  x = None \/ x = Some EmptyString.

(** The number of reads among a list of effects. *)
Definition store_reads (es : list Effect) : list Effect :=
  List.filter (fun e => match e with RedisGet _ => true | _ => false end) es.

(** The calls the handler makes to the store client and to [fetch], in
    order: every effect but the console output. *)
Definition calls_made (es : list Effect) : list Effect :=
  List.filter (fun e => match e with ConsoleError _ _ => false | _ => true end) es.

(** A store that answers reads and cannot be reached for the write. *)
Definition write_failing_services : Services :=
  {| now_iso := "2026-11-02T10:15:30.000Z";
     redis_get_fault := None;
     redis_set_fault := Some "ECONNREFUSED";
     upstream := fun _ => Normal sample_reply |}.

(** An upstream response whose body cannot be read. *)
Definition broken_reply : FetchResponse :=
  {| fr_status := 200; fr_text := Throw "terminated" |}.

Definition broken_services : Services :=
  {| now_iso := "2026-11-02T10:15:30.000Z";
     redis_get_fault := None;
     redis_set_fault := None;
     upstream := fun _ => Normal broken_reply |}.

(** The store holds the count [u] under [key]: no entry for the count 0,
    or an entry with the number [u]. *)
Definition stored_count (st : gmap string RedisEntry) (key : string) (u : Z) : Prop :=
  (st !! key = None /\ u = 0) \/
  (exists ex, st !! key = Some {| entry_value := VNum (JNum u); entry_ex := ex |}).

(** A request with the services of the moment it arrives at, and the
    answer and body the upstream API gives it. *)
Record Exchange : Type := {
  at_moment : Services;
  request_of : Request;
  reply_of : FetchResponse;
  body_of : string
}.

(** A POST request of the caller whose counter is [key], at a moment when
    the store answers the read and the write, which the upstream API
    answers with a successful status and a body that can be read. *)
Definition counted_exchange (env : Env) (key : string) (x : Exchange) : Prop :=
  method (request_of x) = "POST" /\
  usage_key (at_moment x) (request_of x) = key /\
  redis_get_fault (at_moment x) = None /\
  redis_set_fault (at_moment x) = None /\
  upstream (at_moment x) (upstream_request env (request_of x)) = Normal (reply_of x) /\
  fr_ok (reply_of x) = true /\
  fr_text (reply_of x) = Normal (body_of x).

(** The requests of a list of exchanges, each with its moment, in order. *)
Definition arrivals (xs : list Exchange) : list (Services * Request) :=
  map (fun x => (at_moment x, request_of x)) xs.

(** A later moment of the same UTC date, another request of the same
    caller, and another answer. *)
Definition later_reply : FetchResponse :=
  {| fr_status := 201; fr_text := Normal "created" |}.

Definition later_services : Services :=
  {| now_iso := "2026-11-02T18:40:05.250Z";
     redis_get_fault := None;
     redis_set_fault := None;
     upstream := fun _ => Normal later_reply |}.

Definition later_request : Request :=
  {| method := "POST";
     headers := {[ "x-client-id" := "fp-1"; "x-forwarded-for" := "203.0.113.7" ]};
     body := VObj [("model", VStr "exam")] |}.

Definition morning_exchange : Exchange :=
  {| at_moment := sample_services; request_of := sample_request;
     reply_of := sample_reply; body_of := "{}" |}.

Definition evening_exchange : Exchange :=
  {| at_moment := later_services; request_of := later_request;
     reply_of := later_reply; body_of := "created" |}.

(** What the handler looks at in the outcome of the upstream call before
    it reads the body: the value thrown, or whether the status is
    successful. *)
Definition thrown_or_ok (c : Completion FetchResponse) : JSError + bool :=
  match c with
  | Throw e => inl e
  | Normal r => inr (fr_ok r)
  end.

(** ** The primitives on examples *)

Example parseInt_7 : parseInt (VStr "7") = JNum 7.
Proof. reflexivity. Qed.
Example parseInt_num : parseInt (VNum (JNum 12)) = JNum 12.
Proof. reflexivity. Qed.
Example parseInt_px : parseInt (VStr "  -42px") = JNum (-42).
Proof. reflexivity. Qed.
Example parseInt_hex : parseInt (VStr "0x1f") = JNum 31.
Proof. reflexivity. Qed.
Example parseInt_abc : parseInt (VStr "abc") = NaN.
Proof. reflexivity. Qed.
Example parseInt_empty : parseInt (VStr EmptyString) = NaN.
Proof. reflexivity. Qed.
Example parseInt_true : parseInt (VBool true) = NaN.
Proof. reflexivity. Qed.
Example parseInt_or_null : parseInt (js_or VNull (VStr "0")) = JNum 0.
Proof. reflexivity. Qed.
Example trim_first_address :
  trim (split_first ","%char " 203.0.113.7 , 10.0.0.1") = "203.0.113.7".
Proof. reflexivity. Qed.
Example identifier_unknown :
  identifier {| method := "POST"; headers := ∅; body := VNull |} = "unknown:unknown".
Proof. reflexivity. Qed.
Example sample_key_computed : usage_key sample_services sample_request = sample_key.
Proof. reflexivity. Qed.
Example stringify_array :
  JSON_stringify (VArr [VNum (JNum (-7)); VUndefined; VBool true; VNum NaN])
  = Some "[-7,null,true,null]".
Proof. reflexivity. Qed.
Example read_array :
  JSON_read "[-7,null,true,{},[]]"
  = Some (VArr [VNum (JNum (-7)); VNull; VBool true; VObj []; VArr []]).
Proof. reflexivity. Qed.
Example getRedis_empty_token :
  getRedis {| UPSTASH_REDIS_REST_URL := Some "https://store.example";
              UPSTASH_REDIS_REST_TOKEN := Some EmptyString;
              ANTHROPIC_API_KEY := None |} = None.
Proof. reflexivity. Qed.

(** A method other than OPTIONS and POST is answered 405, without any
    effect. *)
Example method_not_allowed :
  serve sample_env sample_services ∅
    {| method := "GET"; headers := ∅; body := VUndefined |}
  = (Normal {| statusCode := 405; res_headers := [];
               payload := JsonBody (VObj [("error", VStr "Method not allowed")]) |},
     {| store := ∅; effects := [] |}).
Proof. reflexivity. Qed.

(** ** Numbers and their decimal form *)

Lemma app_assoc_string (a b c : string) : (a +:+ b) +:+ c = a +:+ (b +:+ c).
Proof.
  induction a as [|x a IH]; [reflexivity|].
  change (String x ((a +:+ b) +:+ c) = String x (a +:+ (b +:+ c))).
  now rewrite IH.
Qed.

Lemma app_empty_string (t : string) : t +:+ EmptyString = t.
Proof.
  induction t as [|c t IHt]; [reflexivity|].
  change (String c (t +:+ EmptyString) = String c t). now rewrite IHt.
Qed.

Lemma length_app_string (a b : string) :
  String.length (a +:+ b) = (String.length a + String.length b)%nat.
Proof.
  induction a as [|c a IHa]; [reflexivity|].
  change (S (String.length (a +:+ b)) = S (String.length a + String.length b)).
  now rewrite IHa.
Qed.

Lemma app_cons_string (c : ascii) (a b : string) :
  String c a +:+ b = String c (a +:+ b).
Proof. reflexivity. Qed.

Lemma app_nil_string (a : string) : EmptyString +:+ a = a.
Proof. reflexivity. Qed.

Ltac norm_app :=
  repeat (rewrite app_assoc_string || rewrite app_cons_string
          || rewrite app_nil_string).

Lemma pretty_N_go_app (x : N) (s : string) :
  pretty_N_go x s = pretty_N_go x EmptyString +:+ s.
Proof.
  revert s. induction (N.lt_wf_0 x) as [x _ IH]; intros s.
  destruct (decide (x = 0)%N) as [->|Hx].
  - now rewrite !pretty_N_go_0.
  - assert (Hlt : (x `div` 10 < x)%N) by (apply N.div_lt; lia).
    rewrite !(pretty_N_go_step x) by lia.
    rewrite (IH _ Hlt (String _ s)), (IH _ Hlt (String _ EmptyString)).
    now rewrite app_assoc_string.
Qed.

Lemma pretty_N_go_snoc (x : N) :
  (0 < x)%N ->
  pretty_N_go x EmptyString
  = pretty_N_go (x `div` 10) EmptyString
    +:+ String (pretty_N_char (x `mod` 10)) EmptyString.
Proof.
  intros Hx. rewrite pretty_N_go_step by exact Hx. apply pretty_N_go_app.
Qed.

(** A number below ten is one of the ten digits. *)
Lemma digit_cases (n : N) :
  (n < 10)%N -> In n [0; 1; 2; 3; 4; 5; 6; 7; 8; 9]%N.
Proof. intros Hn. cbn [In]. lia. Qed.

(** Case analysis on a digit [d], given [H : d < 10]. *)
Ltac by_digit d H :=
  let Hc := fresh "Hc" in
  pose proof (digit_cases d H) as Hc; cbn [In] in Hc;
  repeat (destruct Hc as [<- | Hc]); [.. | destruct Hc].

Lemma radix_digit_pretty_char (n : N) :
  (n < 10)%N -> radix_digit 10 (pretty_N_char n) = Some (Z.of_N n).
Proof. intros Hn. by_digit n Hn; reflexivity. Qed.

(** Reading back the digits that [pretty] wrote: the digits of [x] in
    front of [rest] continue the number that [rest] goes on with. *)
Lemma digits_of_pretty (x : N) (rest : string) :
  fold_left (fun acc d => acc * 10 + d)
    (digits_prefix 10 (pretty_N_go x EmptyString +:+ rest)) 0
  = fold_left (fun acc d => acc * 10 + d) (digits_prefix 10 rest) (Z.of_N x).
Proof.
  revert rest. induction (N.lt_wf_0 x) as [x _ IH]; intros rest.
  destruct (decide (x = 0)%N) as [->|Hx]; [reflexivity|].
  assert (Hlt : (x `div` 10 < x)%N) by (apply N.div_lt; lia).
  rewrite pretty_N_go_snoc by lia. rewrite app_assoc_string.
  rewrite (IH _ Hlt).
  change (String ?c EmptyString +:+ rest) with (String c rest).
  cbn [digits_prefix].
  rewrite radix_digit_pretty_char by (apply N.mod_lt; lia).
  cbn [fold_left]. f_equal.
  assert (Hdm : (x = 10 * (x `div` 10) + x `mod` 10)%N) by (apply N.div_mod; discriminate).
  generalize dependent (x `mod` 10)%N. generalize dependent (x `div` 10)%N. intros; lia.
Qed.

(** The decimal form of a positive number starts with a digit from 1 to 9. *)
Lemma pretty_head (x : N) (rest : string) :
  (0 < x)%N ->
  exists d s, (1 <= d < 10)%N /\
    pretty_N_go x EmptyString +:+ rest = String (pretty_N_char d) s.
Proof.
  revert rest. induction (N.lt_wf_0 x) as [x _ IH]; intros rest Hx.
  rewrite pretty_N_go_snoc by lia. rewrite app_assoc_string.
  destruct (decide (x `div` 10 = 0)%N) as [Hq|Hq].
  - rewrite Hq, pretty_N_go_0. exists (x `mod` 10)%N, rest. split; [|reflexivity].
    assert (Hdm : (x = 10 * (x `div` 10) + x `mod` 10)%N) by (apply N.div_mod; discriminate).
    assert (Hm : (x `mod` 10 < 10)%N) by (apply N.mod_lt; discriminate).
    rewrite Hq in Hdm. generalize dependent (x `mod` 10)%N. intros; lia.
  - apply IH; [apply N.div_lt; lia | apply N.neq_0_lt_0; exact Hq].
Qed.

(** On a string that starts with a digit from 1 to 9, with or without a
    minus sign in front, [parseInt] reads the decimal digits. *)
Lemma parseInt_leading_digit (d : N) (s : string) :
  (1 <= d < 10)%N ->
  parseInt_string (String (pretty_N_char d) s)
  = match digits_prefix 10 (String (pretty_N_char d) s) with
    | [] => NaN
    | ds => JNum (1 * digits_to_int 10 ds)
    end /\
  parseInt_string (String "-" (String (pretty_N_char d) s))
  = match digits_prefix 10 (String (pretty_N_char d) s) with
    | [] => NaN
    | ds => JNum (-1 * digits_to_int 10 ds)
    end.
Proof.
  intros [Hd1 Hd10]. by_digit d Hd10; first [lia | split; reflexivity].
Qed.

(** [parseInt] reads the decimal form of a positive number back. *)
Lemma parseInt_pretty_pos (x : N) :
  (0 < x)%N ->
  parseInt_string (pretty_N_go x EmptyString) = JNum (Z.of_N x) /\
  parseInt_string ("-" +:+ pretty_N_go x EmptyString) = JNum (- Z.of_N x).
Proof.
  intros Hx.
  pose proof (digits_of_pretty x EmptyString) as Hd.
  destruct (pretty_head x EmptyString Hx) as (d & s & Hd19 & Hs).
  rewrite app_empty_string in Hd, Hs. rewrite Hs in *.
  change ("-" +:+ String (pretty_N_char d) s)
    with (String "-" (String (pretty_N_char d) s)).
  destruct (parseInt_leading_digit d s Hd19) as [-> ->].
  assert (Hne : exists k ks, digits_prefix 10 (String (pretty_N_char d) s) = k :: ks).
  { cbn [digits_prefix]. rewrite radix_digit_pretty_char by lia. eauto. }
  destruct Hne as (k & ks & Hks).
  assert (Hval : digits_to_int 10 (k :: ks) = Z.of_N x).
  { unfold digits_to_int. rewrite <- Hks. exact Hd. }
  rewrite Hks, Hval. split; f_equal; lia.
Qed.

(** Proofs of bounds in the safe range. *)
Ltac safe_lia :=
  unfold safe_integer, MAX_SAFE_INTEGER, DAILY_LIMIT in *;
  change (2 ^ 53) with 9007199254740992 in *; lia.

(** [parseInt(String(z)) = z] for every safe integer [z]: its string is
    its decimal form, which [parseInt] reads back. *)
Lemma parseInt_number (z : Z) :
  safe_integer z -> parseInt (VNum (JNum z)) = JNum z.
Proof.
  intros _. unfold parseInt. cbn [js_toString number_toString].
  destruct z as [|p|p].
  - reflexivity.
  - change (pretty (Z.pos p)) with (pretty_N_go (N.pos p) EmptyString).
    destruct (parseInt_pretty_pos (N.pos p)) as [H _]; [lia|]. exact H.
  - change (pretty (Z.neg p)) with ("-" +:+ pretty_N_go (N.pos p) EmptyString).
    destruct (parseInt_pretty_pos (N.pos p)) as [_ H]; [lia|]. exact H.
Qed.

(** ** The paths of the handler *)

Ltac run_handler :=
  unfold serve, handler, world_after_call, usage_seen, read_effects,
    mbind, M_bind, mret, M_ret, try_catch, redis_get, redis_set, fetch, text,
    console_error, perform in *;
  cbn [store effects app fst snd] in *.

Ltac post_method H :=
  rewrite H;
  change (("POST" =? "OPTIONS")%string) with false;
  change (("POST" =? "POST")%string) with true;
  cbn [negb].

Lemma serve_options env sv st req :
  method req = "OPTIONS" ->
  serve env sv st req
  = (Normal {| statusCode := 200;
               res_headers :=
                 [("Access-Control-Allow-Origin", "*");
                  ("Access-Control-Allow-Methods", "POST, OPTIONS");
                  ("Access-Control-Allow-Headers", "Content-Type, X-Client-ID")];
               payload := NoBody |},
     {| store := st; effects := [] |}).
Proof. intros Hm. run_handler. rewrite Hm. reflexivity. Qed.

Lemma serve_limited env sv st req :
  method req = "POST" ->
  js_ge (usage_seen env sv st req) (JNum DAILY_LIMIT) = true ->
  serve env sv st req
  = (Normal (limited_response (usage_seen env sv st req)),
     {| store := st; effects := read_effects env sv req |}).
Proof.
  intros Hm Hge. run_handler. post_method Hm.
  destruct (getRedis env) as [r|]; [destruct (redis_get_fault sv) as [e|]|];
    cbn [store effects app]; rewrite Hge; reflexivity.
Qed.

Lemma serve_unreachable env sv st req e :
  method req = "POST" ->
  js_ge (usage_seen env sv st req) (JNum DAILY_LIMIT) = false ->
  upstream sv (upstream_request env req) = Throw e ->
  serve env sv st req
  = (Normal unreachable_response,
     {| store := st;
        effects := read_effects env sv req
                   ++ [Fetch (upstream_request env req);
                       ConsoleError "Anthropic API error:" e] |}).
Proof.
  intros Hm Hge Hup. run_handler. post_method Hm.
  destruct (getRedis env) as [r|]; [destruct (redis_get_fault sv) as [e'|]|];
    cbn [store effects app]; rewrite Hge, Hup; reflexivity.
Qed.

Lemma serve_relayed env sv st req r :
  method req = "POST" ->
  js_ge (usage_seen env sv st req) (JNum DAILY_LIMIT) = false ->
  upstream sv (upstream_request env req) = Normal r ->
  serve env sv st req
  = (match fr_text r with
     | Normal b => Normal (relayed_response (usage_seen env sv st req) r b)
     | Throw e => Throw e
     end,
     world_after_call env sv st req r).
Proof.
  intros Hm Hge Hup. run_handler. post_method Hm.
  destruct (getRedis env) as [c|]; [destruct (redis_get_fault sv) as [e'|]|];
    cbn [store effects app]; rewrite Hge, Hup;
    destruct (fr_ok r); cbn [andb store effects app];
    try (rewrite bool_decide_eq_true_2 by eauto);
    try (rewrite bool_decide_eq_false_2 by (intros [? ?]; discriminate));
    try destruct (redis_set_fault sv) as [e2|];
    cbn [store effects app]; destruct (fr_text r); reflexivity.
Qed.

Lemma serve_not_allowed env sv st req :
  method req <> "OPTIONS" ->
  method req <> "POST" ->
  serve env sv st req
  = (Normal {| statusCode := 405;
               res_headers := [];
               payload := JsonBody (VObj [("error", VStr "Method not allowed")]) |},
     {| store := st; effects := [] |}).
Proof.
  intros Ho Hp. run_handler.
  apply String.eqb_neq in Ho, Hp. rewrite Ho, Hp. reflexivity.
Qed.

Lemma serve_post env sv st req :
  method req = "POST" -> serve env sv st req = post_outcome env sv st req.
Proof.
  intros Hm. unfold post_outcome.
  destruct (js_ge (usage_seen env sv st req) (JNum DAILY_LIMIT)) eqn:Hge.
  - now apply serve_limited.
  - destruct (upstream sv (upstream_request env req)) as [r|e] eqn:Hup.
    + now apply serve_relayed.
    + now apply serve_unreachable.
Qed.

(** The three cases of the check on the method. *)
Lemma method_cases (req : Request) :
  method req = "OPTIONS" \/ method req = "POST" \/
  (method req <> "OPTIONS" /\ method req <> "POST").
Proof.
  destruct (String.eqb_spec (method req) "OPTIONS"); [now left|].
  destruct (String.eqb_spec (method req) "POST"); [now right; left|].
  right; right. now split.
Qed.

(** ** The count the handler reads *)

Lemma usage_seen_recorded env sv st req u :
  recorded_usage env sv st req u ->
  safe_integer u ->
  usage_seen env sv st req = JNum u.
Proof.
  intros ([c Hc] & Hget & Hst) Hsafe. unfold usage_seen, stored_value.
  rewrite Hc, Hget.
  destruct Hst as [[-> ->] | [ex ->]]; [reflexivity|].
  cbn [entry_value]. unfold js_or. cbn [truthy].
  destruct (Z.eqb_spec u 0) as [->|Hu]; [reflexivity|].
  cbn [negb]. apply parseInt_number. exact Hsafe.
Qed.

Lemma usage_seen_fail_open env sv st req :
  getRedis env = None \/ is_Some (redis_get_fault sv) ->
  usage_seen env sv st req = JNum 0.
Proof.
  unfold usage_seen. intros [-> | [e ->]]; [reflexivity|].
  destruct (getRedis env); reflexivity.
Qed.

Lemma upstream_calls_read env sv req : upstream_calls (read_effects env sv req) = [].
Proof.
  unfold read_effects. destruct (getRedis env); [|reflexivity].
  destruct (redis_get_fault sv); reflexivity.
Qed.

Lemma store_writes_read env sv req : store_writes (read_effects env sv req) = [].
Proof.
  unfold read_effects. destruct (getRedis env); [|reflexivity].
  destruct (redis_get_fault sv); reflexivity.
Qed.

Lemma upstream_calls_app es fs :
  upstream_calls (es ++ fs) = upstream_calls es ++ upstream_calls fs.
Proof. apply omap_app. Qed.

Lemma store_writes_app es fs :
  store_writes (es ++ fs) = store_writes es ++ store_writes fs.
Proof. apply List.filter_app. Qed.

(** ** The properties of the relay *)

(** C1. A POST request of a caller whose recorded usage count for the
    current UTC date is [u >= 10] is answered with status 429 and a JSON
    body whose [error.type] is [rate_limit_exceeded] and whose [error.used]
    is [u]; no upstream call is made.  The count is a safe integer: it is
    at most [MAX_SAFE_INTEGER]. *)
Theorem quota_exceeded_rejected env sv st req u :
  method req = "POST" ->
  recorded_usage env sv st req u ->
  10 <= u <= MAX_SAFE_INTEGER ->
  exists res b,
    (serve env sv st req).1 = Normal res /\
    statusCode res = 429 /\
    payload res = JsonBody b /\
    prop "type" (prop "error" b) = VStr "rate_limit_exceeded" /\
    prop "used" (prop "error" b) = VNum (JNum u) /\
    upstream_calls (effects (serve env sv st req).2) = [].
Proof.
  intros Hm Hrec Hu.
  assert (Hseen : usage_seen env sv st req = JNum u)
    by (apply usage_seen_recorded; [exact Hrec | safe_lia]).
  rewrite (serve_limited env sv st req Hm).
  - rewrite Hseen. eexists _, _. cbn [fst snd effects].
    repeat split; try reflexivity. apply upstream_calls_read.
  - rewrite Hseen. unfold js_ge, DAILY_LIMIT. apply Z.leb_le. lia.
Qed.

Lemma quota_exceeded_rejected_witness :
  exists res b,
    (serve sample_env sample_services (sample_store (VNum (JNum 12)))
       sample_request).1 = Normal res /\
    statusCode res = 429 /\
    payload res = JsonBody b /\
    prop "type" (prop "error" b) = VStr "rate_limit_exceeded" /\
    prop "used" (prop "error" b) = VNum (JNum 12) /\
    upstream_calls
      (effects (serve sample_env sample_services (sample_store (VNum (JNum 12)))
                  sample_request).2) = [].
Proof.
  apply (quota_exceeded_rejected sample_env sample_services
           (sample_store (VNum (JNum 12))) sample_request 12).
  - reflexivity.
  - split; [eexists; reflexivity|]. split; [reflexivity|].
    right. eexists. reflexivity.
  - safe_lia.
Defined.

(** C2, as stated, fails: a successful upstream status does not by itself
    give the stored count [u + 1] and the header.  With the count 3
    recorded and an upstream answer of status 200, a write that throws is
    caught and logged and the store still holds 3; and when the body of
    the upstream answer cannot be read the handler produces no response,
    hence no header. *)
Lemma successful_call_counterexample :
  method sample_request = "POST" /\
  recorded_usage sample_env write_failing_services (sample_store (VNum (JNum 3)))
    sample_request 3 /\
  upstream write_failing_services (upstream_request sample_env sample_request)
  = Normal sample_reply /\
  fr_ok sample_reply = true /\
  store (serve sample_env write_failing_services (sample_store (VNum (JNum 3)))
           sample_request).2 !! usage_key write_failing_services sample_request
  = Some {| entry_value := VNum (JNum 3); entry_ex := Some 86400 |} /\
  fr_ok broken_reply = true /\
  (serve sample_env broken_services (sample_store (VNum (JNum 3)))
     sample_request).1 = Throw "terminated".
Proof.
  split; [reflexivity|]. split.
  { split; [eexists; reflexivity|]. split; [reflexivity|].
    right. eexists. reflexivity. }
  repeat split.
Qed.

(** C2, amended. For a POST request of a caller whose recorded usage count
    for the current UTC date is [u] with [0 <= u < 10], when the upstream
    call completes with a successful status the handler sends the store
    exactly one write, which sets the caller's counter to [u + 1] with an
    expiry of 86400 seconds; the store holds that entry afterwards when the
    write does not throw; and when the body of the upstream response is
    read, the response carries [X-RateLimit-Remaining] equal to
    [10 - u - 1]. *)
Theorem successful_call_counted env sv st req u r :
  method req = "POST" ->
  recorded_usage env sv st req u ->
  0 <= u < 10 ->
  upstream sv (upstream_request env req) = Normal r ->
  fr_ok r = true ->
  store_writes (effects (serve env sv st req).2)
  = [RedisSet (usage_key sv req) (VNum (JNum (u + 1))) 86400] /\
  (redis_set_fault sv = None ->
   store (serve env sv st req).2 !! usage_key sv req
   = Some {| entry_value := VNum (JNum (u + 1)); entry_ex := Some 86400 |}) /\
  (forall b, fr_text r = Normal b ->
     exists res,
       (serve env sv st req).1 = Normal res /\
       getHeader "X-RateLimit-Remaining" res = Some (pretty (DAILY_LIMIT - u - 1))).
Proof.
  intros Hm Hrec Hu Hup Hok.
  assert (Hseen : usage_seen env sv st req = JNum u)
    by (apply usage_seen_recorded; [exact Hrec | safe_lia]).
  destruct Hrec as (Hredis & _ & _).
  rewrite (serve_relayed env sv st req r Hm); [| |exact Hup].
  2: { rewrite Hseen. unfold js_ge, DAILY_LIMIT. apply Z.leb_gt. lia. }
  cbn [fst snd]. unfold world_after_call.
  rewrite Hok, Hseen, (bool_decide_eq_true_2 _ Hredis). cbn [andb js_add].
  split; [|split].
  - destruct (redis_set_fault sv); cbn [effects];
      rewrite store_writes_app, store_writes_read; reflexivity.
  - intros ->. cbn [store]. apply lookup_insert_eq.
  - intros b ->. eexists. split; [reflexivity|].
    unfold relayed_response, js_sub, Math_max.
    rewrite Z.max_r by (unfold DAILY_LIMIT; lia). reflexivity.
Qed.

Lemma successful_call_counted_witness :
  store_writes
    (effects (serve sample_env sample_services (sample_store (VNum (JNum 3)))
                sample_request).2)
  = [RedisSet sample_key (VNum (JNum 4)) 86400] /\
  store (serve sample_env sample_services (sample_store (VNum (JNum 3)))
           sample_request).2 !! sample_key
  = Some {| entry_value := VNum (JNum 4); entry_ex := Some 86400 |} /\
  exists res,
    (serve sample_env sample_services (sample_store (VNum (JNum 3)))
       sample_request).1 = Normal res /\
    getHeader "X-RateLimit-Remaining" res = Some "6".
Proof.
  destruct (successful_call_counted sample_env sample_services
              (sample_store (VNum (JNum 3))) sample_request 3 sample_reply)
    as (Hw & Hs & Hr).
  - reflexivity.
  - split; [eexists; reflexivity|]. split; [reflexivity|].
    right. eexists. reflexivity.
  - lia.
  - reflexivity.
  - reflexivity.
  - split; [exact Hw|]. split; [exact (Hs eq_refl)|].
    exact (Hr "{}" eq_refl).
Defined.

(** ** What reaches the upstream API and the store *)

Lemma upstream_calls_after_call env sv st req r :
  upstream_calls (effects (world_after_call env sv st req r))
  = [upstream_request env req].
Proof.
  unfold world_after_call.
  destruct (fr_ok r && bool_decide (is_Some (getRedis env)));
    [destruct (redis_set_fault sv)|];
    cbn [effects]; rewrite upstream_calls_app, upstream_calls_read; reflexivity.
Qed.

(** A request that is not rejected for quota is forwarded, once. *)
Lemma upstream_calls_forwarded env sv st req :
  method req = "POST" ->
  js_ge (usage_seen env sv st req) (JNum DAILY_LIMIT) = false ->
  upstream_calls (effects (serve env sv st req).2) = [upstream_request env req].
Proof.
  intros Hm Hge. rewrite (serve_post _ _ _ _ Hm). unfold post_outcome. rewrite Hge.
  destruct (upstream sv (upstream_request env req)) as [r|e]; cbn [snd effects].
  - apply upstream_calls_after_call.
  - rewrite upstream_calls_app, upstream_calls_read. reflexivity.
Qed.

(** Whatever the request, the handler calls nothing but the upstream
    endpoint with [upstream_request], and at most once. *)
Lemma upstream_calls_serve env sv st req :
  upstream_calls (effects (serve env sv st req).2) = [] \/
  upstream_calls (effects (serve env sv st req).2) = [upstream_request env req].
Proof.
  destruct (method_cases req) as [Hm | [Hm | [Ho Hp]]].
  - rewrite (serve_options _ _ _ _ Hm). now left.
  - destruct (js_ge (usage_seen env sv st req) (JNum DAILY_LIMIT)) eqn:Hge.
    + rewrite (serve_limited _ _ _ _ Hm Hge). left. apply upstream_calls_read.
    + right. now apply upstream_calls_forwarded.
  - rewrite (serve_not_allowed _ _ _ _ Ho Hp). now left.
Qed.

(** No decimal numeral reads [NaN]. *)
Lemma pretty_not_NaN (n : Z) : pretty n <> "NaN".
Proof.
  destruct n as [|p|p].
  - discriminate.
  - change (pretty (Z.pos p)) with (pretty_N_go (N.pos p) EmptyString).
    destruct (pretty_head (N.pos p) EmptyString) as (d & s & Hd & Hs); [lia|].
    rewrite app_empty_string in Hs. rewrite Hs.
    destruct Hd as [_ Hd]. by_digit d Hd; discriminate.
  - change (pretty (Z.neg p)) with ("-" +:+ pretty_N_go (N.pos p) EmptyString).
    discriminate.
Qed.

(** C3, as stated, fails: with the text abc under the caller's key the
    request passes the quota check and the upstream call completes, yet
    [X-RateLimit-Remaining] is [NaN], which is not [limit - count - 1]
    floored at zero for any count.  And when the upstream call completes
    with a body that cannot be read, the handler relays nothing: it ends
    with the exception of line 98 and produces no response. *)
Lemma relay_remaining_counterexample :
  method sample_request = "POST" /\
  js_ge (usage_seen sample_env sample_services (sample_store (VStr "abc"))
           sample_request) (JNum DAILY_LIMIT) = false /\
  upstream sample_services (upstream_request sample_env sample_request)
  = Normal sample_reply /\
  (exists res,
     (serve sample_env sample_services (sample_store (VStr "abc"))
        sample_request).1 = Normal res /\
     getHeader "X-RateLimit-Remaining" res = Some "NaN") /\
  (forall count : Z, pretty (Z.max 0 (DAILY_LIMIT - count - 1)) <> "NaN") /\
  js_ge (usage_seen sample_env broken_services (sample_store (VNum (JNum 3)))
           sample_request) (JNum DAILY_LIMIT) = false /\
  upstream broken_services (upstream_request sample_env sample_request)
  = Normal broken_reply /\
  (serve sample_env broken_services (sample_store (VNum (JNum 3)))
     sample_request).1 = Throw "terminated".
Proof.
  split; [reflexivity|]. split; [reflexivity|]. split; [reflexivity|].
  split; [eexists; split; reflexivity|].
  split; [intros count; apply pretty_not_NaN|].
  repeat split.
Qed.

(** C3, amended. A POST request that passes the quota check, whose
    upstream call completes, with any status, and whose response body is
    read, gets the upstream body and status unchanged, with
    [X-RateLimit-Limit] 10 and with [X-RateLimit-Remaining] equal to
    [limit - count - 1] floored at zero when the count the handler read is
    an integer, and to [NaN] when the stored value did not parse.  The
    count read and its difference from the limit are in the safe-integer
    range. *)
Theorem relay_passthrough env sv st req r b :
  method req = "POST" ->
  js_ge (usage_seen env sv st req) (JNum DAILY_LIMIT) = false ->
  upstream sv (upstream_request env req) = Normal r ->
  fr_text r = Normal b ->
  safe_number (usage_seen env sv st req) ->
  safe_number (js_sub (JNum DAILY_LIMIT) (usage_seen env sv st req)) ->
  exists res,
    (serve env sv st req).1 = Normal res /\
    statusCode res = fr_status r /\
    payload res = TextBody b /\
    getHeader "X-RateLimit-Limit" res = Some "10" /\
    getHeader "X-RateLimit-Remaining" res
    = Some (match usage_seen env sv st req with
            | JNum count => pretty (Z.max 0 (DAILY_LIMIT - count - 1))
            | NaN => "NaN"
            end).
Proof.
  intros Hm Hge Hup Hb _ _.
  rewrite (serve_relayed _ _ _ _ _ Hm Hge Hup), Hb. cbn [fst].
  eexists. split; [reflexivity|]. split; [reflexivity|]. split; [reflexivity|].
  split; [reflexivity|].
  destruct (usage_seen env sv st req); reflexivity.
Qed.

Lemma relay_passthrough_witness :
  exists res,
    (serve sample_env sample_services (sample_store (VNum (JNum 3)))
       sample_request).1 = Normal res /\
    statusCode res = 200 /\
    payload res = TextBody "{}" /\
    getHeader "X-RateLimit-Limit" res = Some "10" /\
    getHeader "X-RateLimit-Remaining" res = Some "6".
Proof.
  apply (relay_passthrough sample_env sample_services
           (sample_store (VNum (JNum 3))) sample_request sample_reply "{}");
    try reflexivity; vm_compute; split; discriminate.
Defined.

(** C4. When a POST request passes the quota check and the call to the
    upstream API throws, the response has status 502 and the generic error
    body, and the counter store is left as it was: no write is sent. *)
Theorem transport_failure_502 env sv st req e :
  method req = "POST" ->
  js_ge (usage_seen env sv st req) (JNum DAILY_LIMIT) = false ->
  upstream sv (upstream_request env req) = Throw e ->
  exists res,
    (serve env sv st req).1 = Normal res /\
    statusCode res = 502 /\
    payload res = JsonBody (VObj [("error", VStr "Failed to reach API")]) /\
    store (serve env sv st req).2 = st /\
    store_writes (effects (serve env sv st req).2) = [].
Proof.
  intros Hm Hge Hup. rewrite (serve_unreachable _ _ _ _ _ Hm Hge Hup).
  cbn [fst snd store effects]. eexists. repeat split.
  rewrite store_writes_app, store_writes_read. reflexivity.
Qed.

Lemma transport_failure_502_witness :
  exists res,
    (serve sample_env unreachable_services (sample_store (VNum (JNum 3)))
       sample_request).1 = Normal res /\
    statusCode res = 502 /\
    payload res = JsonBody (VObj [("error", VStr "Failed to reach API")]) /\
    store (serve sample_env unreachable_services (sample_store (VNum (JNum 3)))
             sample_request).2 = sample_store (VNum (JNum 3)) /\
    store_writes
      (effects (serve sample_env unreachable_services
                  (sample_store (VNum (JNum 3))) sample_request).2) = [].
Proof.
  apply (transport_failure_502 sample_env unreachable_services
           (sample_store (VNum (JNum 3))) sample_request "ECONNRESET");
    reflexivity.
Defined.

(** A failing store write changes neither the status, nor the headers, nor
    the body of the response. *)
Lemma set_fault_invisible env sv st req f :
  method req = "POST" ->
  (serve env (with_set_fault f sv) st req).1 = (serve env sv st req).1.
Proof.
  intros Hm. rewrite !(serve_post _ _ _ _ Hm). unfold post_outcome.
  change (usage_seen env (with_set_fault f sv) st req) with (usage_seen env sv st req).
  change (upstream (with_set_fault f sv)) with (upstream sv).
  destruct (js_ge (usage_seen env sv st req) (JNum DAILY_LIMIT)); [reflexivity|].
  destruct (upstream sv (upstream_request env req)); reflexivity.
Qed.

(** C5. When the counter store is not configured (one of its two
    configuration values is absent) or the read throws, a POST request
    proceeds with the count taken as 0: the upstream call is made, the
    response is the one of a caller with count 0, and whether the store
    write fails changes nothing in the response. *)
Theorem fail_open env sv st req :
  method req = "POST" ->
  UPSTASH_REDIS_REST_URL env = None \/ UPSTASH_REDIS_REST_TOKEN env = None \/
  is_Some (redis_get_fault sv) ->
  usage_seen env sv st req = JNum 0 /\
  upstream_calls (effects (serve env sv st req).2) = [upstream_request env req] /\
  (serve env sv st req).1
  = match upstream sv (upstream_request env req) with
    | Throw e => Normal unreachable_response
    | Normal r =>
        match fr_text r with
        | Normal b => Normal (relayed_response (JNum 0) r b)
        | Throw e => Throw e
        end
    end /\
  (forall f, (serve env (with_set_fault f sv) st req).1 = (serve env sv st req).1).
Proof.
  intros Hm Hopen.
  assert (Hseen : usage_seen env sv st req = JNum 0).
  { apply usage_seen_fail_open. unfold getRedis.
    destruct Hopen as [-> | [-> | He]]; [now left | | now right].
    left. now destruct (UPSTASH_REDIS_REST_URL env). }
  split; [exact Hseen|]. split; [|split].
  - apply upstream_calls_forwarded; [exact Hm|]. now rewrite Hseen.
  - rewrite (serve_post _ _ _ _ Hm). unfold post_outcome. rewrite Hseen.
    change (js_ge (JNum 0) (JNum DAILY_LIMIT)) with false. cbn iota.
    destruct (upstream sv (upstream_request env req)); reflexivity.
  - intros f. now apply set_fault_invisible.
Qed.

Lemma fail_open_witness :
  usage_seen unconfigured_env sample_services (sample_store (VNum (JNum 12)))
    sample_request = JNum 0 /\
  upstream_calls
    (effects (serve unconfigured_env sample_services
                (sample_store (VNum (JNum 12))) sample_request).2)
  = [upstream_request unconfigured_env sample_request] /\
  exists res,
    (serve unconfigured_env sample_services (sample_store (VNum (JNum 12)))
       sample_request).1 = Normal res /\
    statusCode res = 200 /\
    getHeader "X-RateLimit-Remaining" res = Some "9".
Proof.
  destruct (fail_open unconfigured_env sample_services
              (sample_store (VNum (JNum 12))) sample_request)
    as (Hseen & Hcalls & Hres & _).
  - reflexivity.
  - left. reflexivity.
  - split; [exact Hseen|]. split; [exact Hcalls|].
    eexists. split; [exact Hres|]. split; reflexivity.
Defined.

(** C6, as stated, fails: when the upstream API cannot be reached, the 502
    response of the POST path carries neither rate-limit header. *)
Lemma headers_on_502_counterexample :
  method sample_request = "POST" /\
  exists res,
    (serve sample_env unreachable_services (sample_store (VNum (JNum 3)))
       sample_request).1 = Normal res /\
    statusCode res = 502 /\
    getHeader "X-RateLimit-Limit" res = None /\
    getHeader "X-RateLimit-Remaining" res = None.
Proof.
  split; [reflexivity|]. eexists. repeat split.
Qed.

(** C6, amended. A response on the POST path is either the 429 response or
    a relayed upstream response, and then it carries both
    [X-RateLimit-Limit] and [X-RateLimit-Remaining], or it is the 502
    response sent when the upstream call throws, which carries no header
    set by the handler. *)
Theorem rate_limit_headers env sv st req res :
  method req = "POST" ->
  (serve env sv st req).1 = Normal res ->
  ((js_ge (usage_seen env sv st req) (JNum DAILY_LIMIT) = true \/
    exists r, upstream sv (upstream_request env req) = Normal r) /\
   getHeader "X-RateLimit-Limit" res = Some "10" /\
   is_Some (getHeader "X-RateLimit-Remaining" res)) \/
  (js_ge (usage_seen env sv st req) (JNum DAILY_LIMIT) = false /\
   (exists e, upstream sv (upstream_request env req) = Throw e) /\
   statusCode res = 502 /\ res_headers res = []).
Proof.
  intros Hm. rewrite (serve_post _ _ _ _ Hm). unfold post_outcome.
  destruct (js_ge (usage_seen env sv st req) (JNum DAILY_LIMIT)) eqn:Hge.
  - cbn [fst]. intros [= <-]. left.
    split; [now left|]. split; [reflexivity|]. eexists. reflexivity.
  - destruct (upstream sv (upstream_request env req)) as [r|e] eqn:Hup; cbn [fst].
    + destruct (fr_text r) as [b|e]; [|discriminate]. intros [= <-]. left.
      split; [right; eauto|]. split; [reflexivity|]. eexists. reflexivity.
    + intros [= <-]. right. split; [reflexivity|]. split; [eauto|]. now split.
Qed.

Lemma rate_limit_headers_witness :
  ((js_ge (usage_seen sample_env sample_services (sample_store (VNum (JNum 12)))
             sample_request) (JNum DAILY_LIMIT) = true \/
    exists r, upstream sample_services (upstream_request sample_env sample_request)
              = Normal r) /\
   getHeader "X-RateLimit-Limit" (limited_response (JNum 12)) = Some "10" /\
   is_Some (getHeader "X-RateLimit-Remaining" (limited_response (JNum 12)))) \/
  (js_ge (usage_seen sample_env sample_services (sample_store (VNum (JNum 12)))
            sample_request) (JNum DAILY_LIMIT) = false /\
   (exists e, upstream sample_services (upstream_request sample_env sample_request)
              = Throw e) /\
   statusCode (limited_response (JNum 12)) = 502 /\
   res_headers (limited_response (JNum 12)) = []).
Proof.
  apply (rate_limit_headers sample_env sample_services
           (sample_store (VNum (JNum 12))) sample_request
           (limited_response (JNum 12)));
    reflexivity.
Defined.

(** ** [JSON.stringify] loses nothing *)

Lemma read_chars_quote_char (c : ascii) (tail : string) :
  read_chars (quote_char c +:+ tail) = push c (read_chars tail).
Proof. destruct c as [[] [] [] [] [] [] [] []]; reflexivity. Qed.

Lemma read_chars_quote (s rest : string) :
  read_chars (quote_chars s +:+ String dquote rest) = Some (s, rest).
Proof.
  induction s as [|c s IHs]; [reflexivity|].
  cbn [quote_chars]. rewrite app_assoc_string, read_chars_quote_char, IHs.
  reflexivity.
Qed.

Lemma drop_digits_pretty (x : N) (rest : string) :
  drop_digits (pretty_N_go x EmptyString +:+ rest) = drop_digits rest.
Proof.
  revert rest. induction (N.lt_wf_0 x) as [x _ IH]; intros rest.
  destruct (decide (x = 0)%N) as [->|Hx]; [reflexivity|].
  assert (Hlt : (x `div` 10 < x)%N) by (apply N.div_lt; lia).
  rewrite pretty_N_go_snoc by lia. rewrite app_assoc_string, (IH _ Hlt).
  change (String ?c EmptyString +:+ rest) with (String c rest).
  cbn [drop_digits].
  now rewrite radix_digit_pretty_char by (apply N.mod_lt; lia).
Qed.

Lemma drop_no_digits (rest : string) :
  digits_prefix 10 rest = [] -> drop_digits rest = rest.
Proof.
  destruct rest as [|c rest]; [reflexivity|]. cbn [digits_prefix drop_digits].
  destruct (radix_digit 10 c); [discriminate | reflexivity].
Qed.

(** A number is read back, in front of anything but a digit. *)
Lemma read_value_number (fuel : nat) (z : Z) (rest : string) :
  digits_prefix 10 rest = [] ->
  read_value (S fuel) (pretty z +:+ rest) = Some (VNum (JNum z), rest).
Proof.
  intros Hrest.
  assert (Hpos : forall x : N, (0 < x)%N ->
            read_value (S fuel) (pretty_N_go x EmptyString +:+ rest)
            = Some (VNum (JNum (Z.of_N x)), rest) /\
            read_value (S fuel) (String "-" (pretty_N_go x EmptyString +:+ rest))
            = Some (VNum (JNum (- Z.of_N x)), rest)).
  { intros x Hx.
    pose proof (digits_of_pretty x rest) as Hd. rewrite Hrest in Hd. cbn [fold_left] in Hd.
    pose proof (drop_digits_pretty x rest) as Hdrop.
    rewrite (drop_no_digits rest Hrest) in Hdrop.
    destruct (pretty_head x rest Hx) as (d & s & Hd19 & Hs). rewrite Hs in *.
    assert (Hne : exists k ks, digits_prefix 10 (String (pretty_N_char d) s) = k :: ks).
    { cbn [digits_prefix]. rewrite radix_digit_pretty_char by lia. eauto. }
    destruct Hne as (k & ks & Hks).
    assert (Hval : digits_to_int 10 (k :: ks) = Z.of_N x).
    { unfold digits_to_int. rewrite <- Hks. exact Hd. }
    assert (Hread :
      read_value (S fuel) (String (pretty_N_char d) s)
      = match digits_prefix 10 (String (pretty_N_char d) s) with
        | [] => None
        | ds => Some (VNum (JNum (1 * digits_to_int 10 ds)),
                      drop_digits (String (pretty_N_char d) s))
        end /\
      read_value (S fuel) (String "-" (String (pretty_N_char d) s))
      = match digits_prefix 10 (String (pretty_N_char d) s) with
        | [] => None
        | ds => Some (VNum (JNum (-1 * digits_to_int 10 ds)),
                      drop_digits (String (pretty_N_char d) s))
        end).
    { destruct Hd19 as [Hd1 Hd10].
      by_digit d Hd10; first [lia | split; reflexivity]. }
    destruct Hread as [-> ->]. rewrite Hks, Hval, Hdrop.
    split; do 4 f_equal; lia. }
  destruct z as [|p|p].
  - change (pretty 0 +:+ rest) with (String "0" rest).
    cbn -[digits_prefix drop_digits]. unfold read_number.
    cbn [digits_prefix drop_digits]. change (radix_digit 10 "0") with (Some 0).
    rewrite Hrest, (drop_no_digits rest Hrest). reflexivity.
  - change (pretty (Z.pos p)) with (pretty_N_go (N.pos p) EmptyString).
    destruct (Hpos (N.pos p)) as [H _]; [lia|]. exact H.
  - change (pretty (Z.neg p) +:+ rest)
      with (String "-" (pretty_N_go (N.pos p) EmptyString +:+ rest)).
    destruct (Hpos (N.pos p)) as [_ H]; [lia|]. exact H.
Qed.

(** The text of an array element. *)
Local Abbreviation elem_text :=
  (fun x => match JSON_stringify x with Some t => t | None => "null" end).

Lemma reads_back_elems (xs : list JSValue) :
  Forall reads_back xs ->
  xs <> [] ->
  let texts := map elem_text xs in
  (List.length xs <= String.length (join "," texts))%nat /\
  (fold_right (fun x acc => Nat.max (depth x) acc) O xs
   < String.length (join "," texts))%nat /\
  forall fuel more rest,
    (fold_right (fun x acc => Nat.max (depth x) acc) O xs < fuel)%nat ->
    (List.length xs <= more)%nat ->
    digits_prefix 10 rest = [] ->
    read_elems (read_value fuel) more (join "," texts +:+ String "]" rest)
    = Some (xs, rest).
Proof.
  induction 1 as [|x xs (t & Ht & Hlen & Hread) Hxs IH]; [congruence|].
  intros _. cbn [map fold_right]. rewrite Ht.
  destruct xs as [|y ys].
  - cbn [map join fold_right List.length]. split; [lia|]. split; [lia|].
    intros fuel more rest Hfuel Hmore Hrest.
    destruct more as [|more]; [lia|]. cbn [read_elems].
    rewrite Hread by (reflexivity || lia). reflexivity.
  - destruct IH as (IHlen & IHdepth & IHread); [discriminate|].
    set (texts := map elem_text (y :: ys)) in *.
    set (deep := fold_right (fun x acc => Nat.max (depth x) acc) O (y :: ys)) in *.
    assert (Hjoin : join "," (t :: texts) = t +:+ "," +:+ join "," texts)
      by reflexivity.
    rewrite Hjoin, !length_app_string.
    change (String.length ",") with 1%nat. cbn [List.length] in *.
    split; [lia|]. split; [lia|].
    intros fuel more rest Hfuel Hmore Hrest.
    destruct more as [|more]; [lia|]. cbn [read_elems]. norm_app.
    rewrite Hread by (reflexivity || lia).
    change (Ascii.eqb "," "]") with false. change (Ascii.eqb "," ",") with true.
    cbn iota. rewrite IHread by (assumption || lia). reflexivity.
Qed.

Lemma read_value_bracket (fuel : nat) (s1 : string) :
  read_value (S fuel) (String "[" s1)
  = match read_elems (read_value fuel) (String.length s1) s1 with
    | Some (vs, r) => Some (VArr vs, r)
    | None =>
        match s1 with
        | String "]" r => Some (VArr [], r)
        | _ => None
        end
    end.
Proof. reflexivity. Qed.

Lemma read_value_brace (fuel : nat) (s1 : string) :
  read_value (S fuel) (String "{" s1)
  = match read_fields (read_value fuel) (String.length s1) s1 with
    | Some (kvs, r) => Some (VObj kvs, r)
    | None =>
        match s1 with
        | String "}" r => Some (VObj [], r)
        | _ => None
        end
    end.
Proof. reflexivity. Qed.

Lemma read_value_quote (fuel : nat) (s1 : string) :
  read_value (S fuel) (String dquote s1)
  = match read_chars s1 with
    | Some (x, r) => Some (VStr x, r)
    | None => None
    end.
Proof. reflexivity. Qed.

Lemma reads_back_array (xs : list JSValue) :
  Forall reads_back xs -> reads_back (VArr xs).
Proof.
  intros Hxs.
  exists ("[" +:+ join "," (map elem_text xs) +:+ "]").
  split; [reflexivity|].
  destruct xs as [|x xs].
  - split; [vm_compute; lia|]. intros fuel rest Hfuel _.
    destruct fuel as [|[|fuel]]; [cbn in Hfuel; lia | reflexivity | reflexivity].
  - destruct (reads_back_elems (x :: xs) Hxs) as (Hlen & Hdeep & Hread); [discriminate|].
    cbn zeta in *.
    set (texts := map elem_text (x :: xs)) in *.
    split.
    + rewrite !length_app_string. change (depth (VArr (x :: xs)))
        with (S (fold_right (fun x acc => Nat.max (depth x) acc) O (x :: xs))).
      change (String.length "[") with 1%nat. lia.
    + intros fuel rest Hfuel Hrest.
      change (depth (VArr (x :: xs)))
        with (S (fold_right (fun x acc => Nat.max (depth x) acc) O (x :: xs))) in Hfuel.
      destruct fuel as [|fuel]; [lia|]. norm_app.
      rewrite read_value_bracket.
      rewrite Hread; [reflexivity | lia | | exact Hrest].
      rewrite length_app_string. lia.
Qed.

(** The text of a property of an object. *)
Local Abbreviation field_text :=
  (fun kv : string * JSValue =>
     match JSON_stringify (snd kv) with
     | Some sv => Some (quote_string (fst kv) +:+ ":" +:+ sv)
     | None => None
     end).

Lemma reads_back_fields (fields : list (string * JSValue)) :
  Forall (fun kv => reads_back (snd kv)) fields ->
  fields <> [] ->
  let texts := omap field_text fields in
  (List.length fields <= String.length (join "," texts))%nat /\
  (fold_right (fun kv acc => Nat.max (depth (snd kv)) acc) O fields
   < String.length (join "," texts))%nat /\
  forall fuel more rest,
    (fold_right (fun kv acc => Nat.max (depth (snd kv)) acc) O fields < fuel)%nat ->
    (List.length fields <= more)%nat ->
    digits_prefix 10 rest = [] ->
    read_fields (read_value fuel) more (join "," texts +:+ String "}" rest)
    = Some (fields, rest).
Proof.
  induction 1 as [|[k v] fs (t & Ht & Hlen & Hread) Hfs IH]; [congruence|].
  intros _. cbn [omap list_omap fold_right fst snd] in *. rewrite Ht.
  assert (Hfield : forall tail,
            (quote_string k +:+ ":" +:+ t) +:+ tail
            = String dquote (quote_chars k +:+ String dquote (String ":" (t +:+ tail)))).
  { intros tail. unfold quote_string. norm_app. reflexivity. }
  assert (Hflen : (String.length t < String.length (quote_string k +:+ ":" +:+ t))%nat).
  { unfold quote_string. norm_app. cbn [String.length].
    rewrite length_app_string. cbn [String.length]. lia. }
  destruct fs as [|kv fs'].
  - cbn [omap list_omap join fold_right List.length]. split; [lia|]. split; [lia|].
    intros fuel more rest Hfuel Hmore Hrest.
    destruct more as [|more]; [lia|]. rewrite Hfield.
    cbn [read_fields]. change (Ascii.eqb dquote dquote) with true. cbn iota.
    rewrite read_chars_quote. change (Ascii.eqb ":" ":") with true. cbn iota.
    rewrite Hread by (reflexivity || lia). reflexivity.
  - destruct IH as (IHlen & IHdepth & IHread); [discriminate|].
    set (texts := omap field_text (kv :: fs')) in *.
    set (deep := fold_right (fun kv acc => Nat.max (depth (snd kv)) acc) O (kv :: fs')) in *.
    assert (Hjoin : forall ft, join "," (ft :: texts) = ft +:+ "," +:+ join "," texts).
    { intros ft. subst texts. cbn [omap list_omap].
      destruct (JSON_stringify (snd kv)) eqn:Hkv.
      - reflexivity.
      - exfalso. apply Forall_cons in Hfs as [(t' & Ht' & _) _]. congruence. }
    rewrite Hjoin, !(length_app_string (quote_string k +:+ ":" +:+ t)).
    change (String.length ("," +:+ join "," texts))
      with (S (String.length (join "," texts))). cbn [List.length] in *.
    split; [lia|]. split; [lia|].
    intros fuel more rest Hfuel Hmore Hrest.
    destruct more as [|more]; [lia|].
    rewrite (app_assoc_string (quote_string k +:+ ":" +:+ t)), Hfield.
    cbn [read_fields]. change (Ascii.eqb dquote dquote) with true. cbn iota.
    rewrite read_chars_quote. change (Ascii.eqb ":" ":") with true. cbn iota.
    norm_app. rewrite Hread by (reflexivity || lia).
    change (Ascii.eqb "," "}") with false. change (Ascii.eqb "," ",") with true.
    cbn iota. rewrite IHread by (assumption || lia). reflexivity.
Qed.

Lemma reads_back_object (fields : list (string * JSValue)) :
  Forall (fun kv => reads_back (snd kv)) fields -> reads_back (VObj fields).
Proof.
  intros Hfs.
  exists ("{" +:+ join "," (omap field_text fields) +:+ "}").
  split; [reflexivity|].
  destruct fields as [|kv fs].
  - split; [vm_compute; lia|]. intros fuel rest Hfuel _.
    destruct fuel as [|[|fuel]]; [cbn in Hfuel; lia | reflexivity | reflexivity].
  - destruct (reads_back_fields (kv :: fs) Hfs) as (Hlen & Hdeep & Hread); [discriminate|].
    cbn zeta in *.
    set (texts := omap field_text (kv :: fs)) in *.
    split.
    + rewrite !length_app_string. change (depth (VObj (kv :: fs)))
        with (S (fold_right (fun kv acc => Nat.max (depth (snd kv)) acc) O (kv :: fs))).
      change (String.length "{") with 1%nat. lia.
    + intros fuel rest Hfuel Hrest.
      change (depth (VObj (kv :: fs)))
        with (S (fold_right (fun kv acc => Nat.max (depth (snd kv)) acc) O (kv :: fs)))
        in Hfuel.
      destruct fuel as [|fuel]; [lia|]. norm_app.
      rewrite read_value_brace.
      rewrite Hread; [reflexivity | lia | | exact Hrest].
      rewrite length_app_string. lia.
Qed.

Lemma pretty_nonempty (z : Z) : (0 < String.length (pretty z))%nat.
Proof.
  destruct z as [|p|p].
  - vm_compute. lia.
  - change (pretty (Z.pos p)) with (pretty_N_go (N.pos p) EmptyString).
    destruct (pretty_head (N.pos p) EmptyString) as (d & s & _ & Hs); [lia|].
    rewrite app_empty_string in Hs. rewrite Hs. cbn [String.length]. lia.
  - change (pretty (Z.neg p)) with (String "-" (pretty_N_go (N.pos p) EmptyString)).
    cbn [String.length]. lia.
Qed.

(** Every JSON value is read back from its text. *)
Lemma json_reads_back (n : nat) (v : JSValue) :
  (depth v <= n)%nat -> is_json v = true -> reads_back v.
Proof.
  revert v. induction n as [|n IH]; intros v Hdepth Hjson.
  all: destruct v as [| |[]|[z|]|s|xs|fields]; try discriminate.
  all: try (eexists; split; [reflexivity|]; split; [vm_compute; lia|];
            intros [|fuel] rest Hfuel Hrest; [cbn in Hfuel; lia | reflexivity]).
  all: try (exists (pretty z); split; [reflexivity|]; split; [apply pretty_nonempty|];
            intros [|fuel] rest Hfuel Hrest; [cbn in Hfuel; lia|];
            now apply read_value_number).
  all: try (exists (quote_string s); split; [reflexivity|];
            split; [unfold quote_string; cbn [depth String.length]; lia|];
            intros [|fuel] rest Hfuel Hrest; [cbn in Hfuel; lia|];
            unfold quote_string; norm_app; rewrite read_value_quote, read_chars_quote;
            reflexivity).
  all: try (cbn [depth] in Hdepth; lia).
  - apply reads_back_array.
    change (depth (VArr xs))
      with (S (fold_right (fun x acc => Nat.max (depth x) acc) O xs)) in Hdepth.
    change (is_json (VArr xs)) with (forallb is_json xs) in Hjson.
    assert (Hd : (fold_right (fun x acc => Nat.max (depth x) acc) O xs <= n)%nat) by lia.
    clear Hdepth. induction xs as [|x xs IHxs]; [constructor|].
    cbn [fold_right forallb] in *. apply andb_prop in Hjson as [Hx Hxs].
    constructor; [apply IH; [lia | exact Hx] | apply IHxs; [exact Hxs | lia]].
  - apply reads_back_object.
    change (depth (VObj fields))
      with (S (fold_right (fun kv acc => Nat.max (depth (snd kv)) acc) O fields))
      in Hdepth.
    change (is_json (VObj fields))
      with (forallb (fun kv => is_json (snd kv)) fields) in Hjson.
    assert (Hd : (fold_right (fun kv acc => Nat.max (depth (snd kv)) acc) O fields
                  <= n)%nat) by lia.
    clear Hdepth. induction fields as [|kv fs IHfs]; [constructor|].
    cbn [fold_right forallb] in *. apply andb_prop in Hjson as [Hx Hxs].
    constructor; [apply IH; [lia | exact Hx] | apply IHfs; [exact Hxs | lia]].
Qed.

(** [JSON.stringify] loses nothing of a JSON value: the text it writes
    reads back as the value. *)
Lemma JSON_read_stringify (v : JSValue) :
  is_json v = true ->
  exists t, JSON_stringify v = Some t /\ JSON_read t = Some v.
Proof.
  intros Hjson.
  destruct (json_reads_back (depth v) v (le_n _) Hjson) as (t & Ht & Hlen & Hread).
  exists t. split; [exact Ht|]. unfold JSON_read.
  rewrite <- (app_empty_string t) at 2.
  rewrite Hread by (reflexivity || exact Hlen). reflexivity.
Qed.

(** C7. The body of every call the handler makes to the upstream API is
    the inbound [req.body] unmodified: it is the text
    [JSON.stringify(req.body)], whatever the headers, the configuration,
    the store and the clock are, and when [req.body] is a JSON value this
    text reads back as exactly that value. *)
Theorem body_forwarded_unmodified env sv st req r :
  In r (upstream_calls (effects (serve env sv st req).2)) ->
  fetch_url r = "https://api.anthropic.com/v1/messages" /\
  fetch_method r = "POST" /\
  fetch_body r = JSON_stringify (body req) /\
  (is_json (body req) = true ->
   exists t, fetch_body r = Some t /\ JSON_read t = Some (body req)).
Proof.
  intros Hin.
  destruct (upstream_calls_serve env sv st req) as [Hc | Hc];
    rewrite Hc in Hin; cbn [In] in Hin; [contradiction|].
  destruct Hin as [<- | []]. do 3 (split; [reflexivity|]).
  intros Hjson. cbn [fetch_body upstream_request].
  now apply JSON_read_stringify.
Qed.

Lemma body_forwarded_unmodified_witness :
  fetch_body (upstream_request sample_env sample_request)
  = JSON_stringify (VObj [("model", VStr "quiz"); ("max_tokens", VNum (JNum 1024))]) /\
  exists t,
    fetch_body (upstream_request sample_env sample_request) = Some t /\
    JSON_read t
    = Some (VObj [("model", VStr "quiz"); ("max_tokens", VNum (JNum 1024))]).
Proof.
  destruct (body_forwarded_unmodified sample_env sample_services
              (sample_store (VNum (JNum 3))) sample_request
              (upstream_request sample_env sample_request))
    as (_ & _ & Hbody & Hread).
  - left. reflexivity.
  - split; [exact Hbody|]. exact (Hread eq_refl).
Defined.

(** The configuration of the store and the count read do not depend on the
    API key. *)
Lemma api_key_outcome env k sv st req :
  upstream sv (upstream_request (with_api_key k env) req)
  = upstream sv (upstream_request env req) ->
  (post_outcome (with_api_key k env) sv st req).1 = (post_outcome env sv st req).1 /\
  console (effects (post_outcome (with_api_key k env) sv st req).2)
  = console (effects (post_outcome env sv st req).2).
Proof.
  intros Hup. unfold post_outcome. rewrite Hup.
  change (usage_seen (with_api_key k env) sv st req) with (usage_seen env sv st req).
  destruct (js_ge (usage_seen env sv st req) (JNum DAILY_LIMIT)).
  - split; reflexivity.
  - unfold world_after_call, read_effects.
    change (getRedis (with_api_key k env)) with (getRedis env).
    destruct (upstream sv (upstream_request env req)) as [r|e];
      (split; [reflexivity|]);
      destruct (getRedis env); try destruct (redis_get_fault sv);
      try destruct (fr_ok r); try destruct (redis_set_fault sv);
      reflexivity.
Qed.

(** The same holds for every request, whatever its method. *)
Lemma api_key_invisible env k sv st req :
  upstream sv (upstream_request (with_api_key k env) req)
  = upstream sv (upstream_request env req) ->
  (serve (with_api_key k env) sv st req).1 = (serve env sv st req).1 /\
  console (effects (serve (with_api_key k env) sv st req).2)
  = console (effects (serve env sv st req).2).
Proof.
  intros Hup. destruct (method_cases req) as [Hm | [Hm | [Ho Hp]]].
  - rewrite !(serve_options _ _ _ _ Hm). now split.
  - rewrite !(serve_post _ _ _ _ Hm). now apply api_key_outcome.
  - rewrite !(serve_not_allowed _ _ _ _ Ho Hp). now split.
Qed.

(** Every call to the upstream API is [upstream_request]. *)
Lemma upstream_call_is_request env sv st req r :
  In r (upstream_calls (effects (serve env sv st req).2)) ->
  r = upstream_request env req.
Proof.
  intros Hin.
  destruct (upstream_calls_serve env sv st req) as [Hc | Hc];
    rewrite Hc in Hin; cbn [In] in Hin; [contradiction|].
  now destruct Hin as [<- | []].
Qed.

(** C8. The credential header of every upstream call is the API key of the
    process configuration: two calls made for any two inbound requests, on
    any store and at any time, carry the same value.  The key reaches
    neither the response nor the console: with another key in the
    configuration and the same answer from the upstream API, the handler
    produces the same response and the same console output. *)
Theorem credential_server_held env sv1 st1 req1 sv2 st2 req2 :
  (forall r1 r2,
     In r1 (upstream_calls (effects (serve env sv1 st1 req1).2)) ->
     In r2 (upstream_calls (effects (serve env sv2 st2 req2).2)) ->
     fetch_header "x-api-key" r1
     = Some (js_toString (env_value (ANTHROPIC_API_KEY env))) /\
     fetch_header "x-api-key" r2 = fetch_header "x-api-key" r1) /\
  (forall k,
     upstream sv1 (upstream_request (with_api_key k env) req1)
     = upstream sv1 (upstream_request env req1) ->
     (serve (with_api_key k env) sv1 st1 req1).1 = (serve env sv1 st1 req1).1 /\
     console (effects (serve (with_api_key k env) sv1 st1 req1).2)
     = console (effects (serve env sv1 st1 req1).2)).
Proof.
  split.
  - intros r1 r2 Hin1 Hin2.
    rewrite (upstream_call_is_request _ _ _ _ _ Hin1).
    rewrite (upstream_call_is_request _ _ _ _ _ Hin2).
    split; reflexivity.
  - intros k Hup. now apply api_key_invisible.
Qed.

Lemma credential_server_held_witness :
  fetch_header "x-api-key" (upstream_request sample_env sample_request)
  = Some "sk-server-key" /\
  (serve (with_api_key (Some "sk-other-key") sample_env) sample_services
     (sample_store (VNum (JNum 3))) sample_request).1
  = (serve sample_env sample_services (sample_store (VNum (JNum 3)))
       sample_request).1 /\
  console
    (effects (serve (with_api_key (Some "sk-other-key") sample_env)
                unreachable_services (sample_store (VNum (JNum 3)))
                sample_request).2)
  = [("Anthropic API error:", "ECONNRESET")].
Proof.
  destruct (credential_server_held sample_env
              sample_services (sample_store (VNum (JNum 3))) sample_request
              sample_services (sample_store (VNum (JNum 3))) sample_request)
    as (Hkey & Hni).
  destruct (credential_server_held sample_env
              unreachable_services (sample_store (VNum (JNum 3))) sample_request
              sample_services (sample_store (VNum (JNum 3))) sample_request)
    as (_ & Hlog).
  split; [|split].
  - exact (proj1 (Hkey _ _ (or_introl eq_refl) (or_introl eq_refl))).
  - exact (proj1 (Hni (Some "sk-other-key") eq_refl)).
  - rewrite (proj2 (Hlog (Some "sk-other-key") eq_refl)). reflexivity.
Defined.

(** C9. A request with method OPTIONS is answered with status 200 and the
    permissive CORS headers, and the handler performs no effect at all: no
    store access, no upstream call, nothing written to the console, and
    the store is unchanged. *)
Theorem preflight_no_side_effects env sv st req :
  method req = "OPTIONS" ->
  exists res,
    (serve env sv st req).1 = Normal res /\
    statusCode res = 200 /\
    payload res = NoBody /\
    getHeader "Access-Control-Allow-Origin" res = Some "*" /\
    getHeader "Access-Control-Allow-Methods" res = Some "POST, OPTIONS" /\
    getHeader "Access-Control-Allow-Headers" res = Some "Content-Type, X-Client-ID" /\
    store_accesses (effects (serve env sv st req).2) = [] /\
    upstream_calls (effects (serve env sv st req).2) = [] /\
    effects (serve env sv st req).2 = [] /\
    store (serve env sv st req).2 = st.
Proof.
  intros Hm. rewrite (serve_options _ _ _ _ Hm). eexists. repeat split.
Qed.

Lemma preflight_no_side_effects_witness :
  exists res,
    (serve sample_env sample_services (sample_store (VNum (JNum 12)))
       preflight_request).1 = Normal res /\
    statusCode res = 200 /\
    payload res = NoBody /\
    getHeader "Access-Control-Allow-Origin" res = Some "*" /\
    getHeader "Access-Control-Allow-Methods" res = Some "POST, OPTIONS" /\
    getHeader "Access-Control-Allow-Headers" res = Some "Content-Type, X-Client-ID" /\
    store_accesses
      (effects (serve sample_env sample_services (sample_store (VNum (JNum 12)))
                  preflight_request).2) = [] /\
    upstream_calls
      (effects (serve sample_env sample_services (sample_store (VNum (JNum 12)))
                  preflight_request).2) = [] /\
    effects (serve sample_env sample_services (sample_store (VNum (JNum 12)))
               preflight_request).2 = [] /\
    store (serve sample_env sample_services (sample_store (VNum (JNum 12)))
             preflight_request).2
    = sample_store (VNum (JNum 12)).
Proof.
  apply (preflight_no_side_effects sample_env sample_services
           (sample_store (VNum (JNum 12))) preflight_request).
  reflexivity.
Defined.

(** C10, as stated, fails: an empty string under the caller's key is a
    stored value that [parseInt] does not read as an integer, yet the
    handler works with the count 0, because [||] replaces the empty string
    by the text 0 before [parseInt] sees it; the header is then 9. *)
Lemma unparsable_counter_counterexample :
  method sample_request = "POST" /\
  sample_store (VStr EmptyString) !! usage_key sample_services sample_request
  = Some {| entry_value := VStr EmptyString; entry_ex := Some 86400 |} /\
  parseInt (VStr EmptyString) = NaN /\
  usage_seen sample_env sample_services (sample_store (VStr EmptyString))
    sample_request = JNum 0 /\
  exists res,
    (serve sample_env sample_services (sample_store (VStr EmptyString))
       sample_request).1 = Normal res /\
    getHeader "X-RateLimit-Remaining" res = Some "9".
Proof.
  repeat (split; [reflexivity|]). eexists. split; reflexivity.
Qed.

(** C10, amended. When the store answers with a value that is truthy (not
    the empty string, [false], 0 or [null]) and that [parseInt] does not
    read as an integer, the count of a POST request is [NaN]: the quota
    check [currentUsage >= 10] is false, the request is forwarded to the
    upstream API whatever the actual usage, and a relayed response carries
    the text NaN as [X-RateLimit-Remaining]. *)
Theorem unparsable_counter_bypass env sv st req v ex :
  method req = "POST" ->
  is_Some (getRedis env) ->
  redis_get_fault sv = None ->
  st !! usage_key sv req = Some {| entry_value := v; entry_ex := ex |} ->
  truthy v = true ->
  parseInt v = NaN ->
  usage_seen env sv st req = NaN /\
  js_ge (usage_seen env sv st req) (JNum DAILY_LIMIT) = false /\
  upstream_calls (effects (serve env sv st req).2) = [upstream_request env req] /\
  (forall r b,
     upstream sv (upstream_request env req) = Normal r ->
     fr_text r = Normal b ->
     exists res,
       (serve env sv st req).1 = Normal res /\
       statusCode res = fr_status r /\
       payload res = TextBody b /\
       getHeader "X-RateLimit-Remaining" res = Some "NaN").
Proof.
  intros Hm [c Hc] Hget Hst Htruthy Hparse.
  assert (Hseen : usage_seen env sv st req = NaN).
  { unfold usage_seen, stored_value, js_or.
    rewrite Hc, Hget, Hst. cbn [entry_value]. now rewrite Htruthy. }
  split; [exact Hseen|]. split; [now rewrite Hseen|]. split.
  - apply upstream_calls_forwarded; [exact Hm|]. now rewrite Hseen.
  - intros r b Hup Hb.
    rewrite (serve_relayed _ _ _ _ _ Hm) by (try exact Hup; now rewrite Hseen).
    rewrite Hb, Hseen. eexists. repeat split.
Qed.

Lemma unparsable_counter_bypass_witness :
  usage_seen sample_env sample_services (sample_store (VStr "abc")) sample_request
  = NaN /\
  upstream_calls
    (effects (serve sample_env sample_services (sample_store (VStr "abc"))
                sample_request).2)
  = [upstream_request sample_env sample_request] /\
  exists res,
    (serve sample_env sample_services (sample_store (VStr "abc"))
       sample_request).1 = Normal res /\
    statusCode res = 200 /\
    payload res = TextBody "{}" /\
    getHeader "X-RateLimit-Remaining" res = Some "NaN".
Proof.
  destruct (unparsable_counter_bypass sample_env sample_services
              (sample_store (VStr "abc")) sample_request (VStr "abc") (Some 86400))
    as (Hseen & _ & Hcalls & Hres).
  - reflexivity.
  - eexists. reflexivity.
  - reflexivity.
  - reflexivity.
  - reflexivity.
  - reflexivity.
  - split; [exact Hseen|]. split; [exact Hcalls|].
    exact (Hres sample_reply "{}" eq_refl eq_refl).
Defined.

(** ** Further properties of the handler *)

(** On a POST request the handler is the read of the count followed by
    the response to that count. *)
Lemma handler_phases env sv req :
  method req = "POST" ->
  handler env sv req = read_usage env sv req ≫= respond env sv req.
Proof. intros Hm. unfold handler. post_method Hm. reflexivity. Qed.

(** The store after a request: untouched, or the caller's counter set to
    the count plus one, after a successful upstream call. *)
Lemma store_after_serve env sv st req :
  store (serve env sv st req).2 = st \/
  (method req = "POST" /\
   is_Some (getRedis env) /\
   js_ge (usage_seen env sv st req) (JNum DAILY_LIMIT) = false /\
   redis_set_fault sv = None /\
   (exists r, upstream sv (upstream_request env req) = Normal r /\ fr_ok r = true) /\
   store (serve env sv st req).2
   = <[usage_key sv req :=
         {| entry_value := VNum (js_add (usage_seen env sv st req) (JNum 1));
            entry_ex := Some 86400 |}]> st).
Proof.
  destruct (method_cases req) as [Hm | [Hm | [Ho Hp]]].
  - rewrite (serve_options _ _ _ _ Hm). now left.
  - rewrite (serve_post _ _ _ _ Hm).
    destruct (js_ge (usage_seen env sv st req) (JNum DAILY_LIMIT)) eqn:Hge;
      unfold post_outcome; rewrite Hge; [now left|].
    destruct (upstream sv (upstream_request env req)) as [r|e] eqn:Hup; [|now left].
    cbn [snd]. unfold world_after_call.
    destruct (fr_ok r) eqn:Hok; [|now left].
    destruct (getRedis env) as [c|] eqn:Hredis.
    + rewrite (bool_decide_eq_true_2 (is_Some (Some c))) by eauto. cbn [andb].
      destruct (redis_set_fault sv) eqn:Hset; [now left|].
      right. repeat split; eauto.
    + rewrite (bool_decide_eq_false_2 (is_Some None)) by (intros [? ?]; discriminate).
      now left.
  - rewrite (serve_not_allowed _ _ _ _ Ho Hp). now left.
Qed.

(** The writes of a request: none, or the single write of the count plus
    one under the caller's key, after a successful upstream call. *)
Lemma store_writes_serve env sv st req :
  store_writes (effects (serve env sv st req).2) = [] \/
  (method req = "POST" /\
   is_Some (getRedis env) /\
   js_ge (usage_seen env sv st req) (JNum DAILY_LIMIT) = false /\
   (exists r, upstream sv (upstream_request env req) = Normal r /\ fr_ok r = true) /\
   store_writes (effects (serve env sv st req).2)
   = [RedisSet (usage_key sv req)
        (VNum (js_add (usage_seen env sv st req) (JNum 1))) 86400]).
Proof.
  destruct (method_cases req) as [Hm | [Hm | [Ho Hp]]].
  - rewrite (serve_options _ _ _ _ Hm). now left.
  - rewrite (serve_post _ _ _ _ Hm).
    destruct (js_ge (usage_seen env sv st req) (JNum DAILY_LIMIT)) eqn:Hge;
      unfold post_outcome; rewrite Hge; cbn [snd effects].
    { left. apply store_writes_read. }
    destruct (upstream sv (upstream_request env req)) as [r|e] eqn:Hup;
      cbn [snd effects].
    2: { left. rewrite store_writes_app, store_writes_read. reflexivity. }
    unfold world_after_call.
    destruct (fr_ok r) eqn:Hok; cbn [andb effects].
    2: { left. rewrite store_writes_app, store_writes_read. reflexivity. }
    destruct (getRedis env) as [c|] eqn:Hredis.
    + rewrite (bool_decide_eq_true_2 (is_Some (Some c))) by eauto.
      right. split; [exact Hm|]. split; [eauto|]. split; [reflexivity|].
      split; [eauto|].
      destruct (redis_set_fault sv); cbn [effects];
        rewrite store_writes_app, store_writes_read; reflexivity.
    + rewrite (bool_decide_eq_false_2 (is_Some None)) by (intros [? ?]; discriminate).
      left. cbn [effects]. rewrite store_writes_app, store_writes_read.
      reflexivity.
  - rewrite (serve_not_allowed _ _ _ _ Ho Hp). now left.
Qed.

(** X1. A request whose method is neither OPTIONS nor POST, compared
    letter for letter, is answered 405 with the body
    [{ error: 'Method not allowed' }] and no header; the handler performs
    no effect and leaves the store as it was. *)
Theorem other_methods_rejected env sv st req :
  method req <> "OPTIONS" ->
  method req <> "POST" ->
  exists res,
    (serve env sv st req).1 = Normal res /\
    statusCode res = 405 /\
    payload res = JsonBody (VObj [("error", VStr "Method not allowed")]) /\
    res_headers res = [] /\
    effects (serve env sv st req).2 = [] /\
    store (serve env sv st req).2 = st.
Proof.
  intros Ho Hp. rewrite (serve_not_allowed _ _ _ _ Ho Hp).
  eexists. repeat split.
Qed.

Lemma other_methods_rejected_witness :
  exists res,
    (serve sample_env sample_services (sample_store (VNum (JNum 3)))
       {| method := "post"; headers := headers sample_request;
          body := body sample_request |}).1 = Normal res /\
    statusCode res = 405 /\
    payload res = JsonBody (VObj [("error", VStr "Method not allowed")]) /\
    res_headers res = [] /\
    effects (serve sample_env sample_services (sample_store (VNum (JNum 3)))
               {| method := "post"; headers := headers sample_request;
                  body := body sample_request |}).2 = [] /\
    store (serve sample_env sample_services (sample_store (VNum (JNum 3)))
             {| method := "post"; headers := headers sample_request;
                body := body sample_request |}).2
    = sample_store (VNum (JNum 3)).
Proof.
  apply (other_methods_rejected sample_env sample_services
           (sample_store (VNum (JNum 3)))
           {| method := "post"; headers := headers sample_request;
              body := body sample_request |});
    discriminate.
Defined.

Lemma store_accesses_app es fs :
  store_accesses (es ++ fs) = store_accesses es ++ store_accesses fs.
Proof. apply List.filter_app. Qed.

(** X2. When one of the two configuration values of the store is absent
    or is the empty string, [getRedis] gives no client and the handler
    never touches the store, whatever the request: no command is sent, the
    store is unchanged, and no request is answered with the quota
    rejection, whatever the store holds. *)
Theorem unconfigured_store_untouched env sv st req :
  absent_or_empty (UPSTASH_REDIS_REST_URL env) \/
  absent_or_empty (UPSTASH_REDIS_REST_TOKEN env) ->
  getRedis env = None /\
  store_accesses (effects (serve env sv st req).2) = [] /\
  store (serve env sv st req).2 = st /\
  (forall used, (serve env sv st req).1 <> Normal (limited_response used)).
Proof.
  intros Hconf.
  assert (Hredis : getRedis env = None).
  { unfold getRedis.
    destruct Hconf as [[-> | ->] | [-> | ->]]; try reflexivity.
    - now destruct (UPSTASH_REDIS_REST_TOKEN env).
    - now destruct (UPSTASH_REDIS_REST_URL env).
    - destruct (UPSTASH_REDIS_REST_URL env) as [u|]; [|reflexivity].
      cbn. now rewrite andb_false_r. }
  split; [exact Hredis|].
  assert (Hseen : usage_seen env sv st req = JNum 0).
  { apply usage_seen_fail_open. now left. }
  destruct (method_cases req) as [Hm | [Hm | [Ho Hp]]].
  - rewrite (serve_options _ _ _ _ Hm). repeat split. discriminate.
  - rewrite (serve_post _ _ _ _ Hm). unfold post_outcome. rewrite Hseen.
    change (js_ge (JNum 0) (JNum DAILY_LIMIT)) with false. cbn iota.
    unfold world_after_call, read_effects. rewrite Hredis.
    rewrite (bool_decide_eq_false_2 (is_Some None)) by (intros [? ?]; discriminate).
    destruct (upstream sv (upstream_request env req)) as [r|e];
      [rewrite andb_false_r; destruct (fr_text r)|];
      repeat split; discriminate.
  - rewrite (serve_not_allowed _ _ _ _ Ho Hp). repeat split. discriminate.
Qed.

Lemma unconfigured_store_untouched_witness :
  getRedis {| UPSTASH_REDIS_REST_URL := Some "https://store.example";
              UPSTASH_REDIS_REST_TOKEN := Some EmptyString;
              ANTHROPIC_API_KEY := Some "sk-server-key" |} = None /\
  store_accesses
    (effects (serve {| UPSTASH_REDIS_REST_URL := Some "https://store.example";
                       UPSTASH_REDIS_REST_TOKEN := Some EmptyString;
                       ANTHROPIC_API_KEY := Some "sk-server-key" |}
                sample_services (sample_store (VNum (JNum 12))) sample_request).2)
  = [].
Proof.
  destruct (unconfigured_store_untouched
              {| UPSTASH_REDIS_REST_URL := Some "https://store.example";
                 UPSTASH_REDIS_REST_TOKEN := Some EmptyString;
                 ANTHROPIC_API_KEY := Some "sk-server-key" |}
              sample_services (sample_store (VNum (JNum 12))) sample_request)
    as (Hredis & Hacc & _).
  - right. right. reflexivity.
  - split; [exact Hredis | exact Hacc].
Defined.

(** X3. The counter is written only for a request that was forwarded and
    answered by the upstream API with a successful status: every write the
    handler sends is for a POST request that passed the quota check, after
    an upstream response with [ok] status, under the caller's key, with the
    count read plus one as value and 86400 seconds as expiry. *)
Theorem counted_only_after_success env sv st req key value ex :
  In (RedisSet key value ex) (effects (serve env sv st req).2) ->
  method req = "POST" /\
  js_ge (usage_seen env sv st req) (JNum DAILY_LIMIT) = false /\
  (exists r, upstream sv (upstream_request env req) = Normal r /\ fr_ok r = true) /\
  key = usage_key sv req /\
  value = VNum (js_add (usage_seen env sv st req) (JNum 1)) /\
  ex = 86400.
Proof.
  intros Hin.
  assert (Hw : In (RedisSet key value ex)
                 (store_writes (effects (serve env sv st req).2))).
  { unfold store_writes. apply List.filter_In. now split. }
  destruct (store_writes_serve env sv st req) as [Hnone | (Hm & _ & Hge & Hok & Hone)].
  - rewrite Hnone in Hw. destruct Hw.
  - rewrite Hone in Hw. destruct Hw as [[= <- <- <-] | []]. repeat split; auto.
Qed.

Lemma counted_only_after_success_witness :
  method sample_request = "POST" /\
  (exists r, upstream sample_services (upstream_request sample_env sample_request)
             = Normal r /\ fr_ok r = true) /\
  sample_key = usage_key sample_services sample_request.
Proof.
  destruct (counted_only_after_success sample_env sample_services
              (sample_store (VNum (JNum 3))) sample_request
              sample_key (VNum (JNum 4)) 86400)
    as (Hm & _ & Hok & Hkey & _).
  - right. right. left. reflexivity.
  - split; [exact Hm|]. split; [exact Hok | exact Hkey].
Defined.

(** The frame of a request: the keys it does not write. *)
Lemma lookup_other_key env sv st req k :
  k <> usage_key sv req ->
  store (serve env sv st req).2 !! k = st !! k.
Proof.
  intros Hk.
  destruct (store_after_serve env sv st req) as [-> | (_ & _ & _ & _ & _ & ->)];
    [reflexivity|].
  apply lookup_insert_ne. congruence.
Qed.

(** X4. A request changes no counter but, at most, the one of its own
    caller and date: every other key of the store holds afterwards what it
    held before. *)
Theorem other_counters_untouched env sv st req k :
  k <> usage_key sv req ->
  store (serve env sv st req).2 !! k = st !! k.
Proof. exact (lookup_other_key env sv st req k). Qed.

Lemma other_counters_untouched_witness :
  store (serve sample_env sample_services
           (<["usage:fp-2:198.51.100.4:2026-11-02" := counter_entry 7]>
              (sample_store (VNum (JNum 3))))
           sample_request).2 !! "usage:fp-2:198.51.100.4:2026-11-02"
  = Some (counter_entry 7).
Proof.
  rewrite (other_counters_untouched sample_env sample_services
             (<["usage:fp-2:198.51.100.4:2026-11-02" := counter_entry 7]>
                (sample_store (VNum (JNum 3))))
             sample_request "usage:fp-2:198.51.100.4:2026-11-02").
  - reflexivity.
  - discriminate.
Defined.

(** On a store whose counters are within the limit, the count the handler
    works with is an integer from 0 to the limit. *)
Lemma usage_seen_within env sv st req :
  counts_within_limit st ->
  exists c, usage_seen env sv st req = JNum c /\ 0 <= c <= DAILY_LIMIT.
Proof.
  intros Hinv. unfold usage_seen, stored_value, DAILY_LIMIT in *.
  destruct (getRedis env); [|exists 0; split; [reflexivity | lia]].
  destruct (redis_get_fault sv); [exists 0; split; [reflexivity | lia]|].
  destruct (st !! usage_key sv req) as [en|] eqn:Hst;
    [|exists 0; split; [reflexivity | lia]].
  destruct (Hinv _ _ Hst) as (u & -> & Hu). unfold DAILY_LIMIT in Hu.
  exists u. split; [|lia]. unfold js_or. cbn [truthy].
  destruct (Z.eqb_spec u 0) as [->|_]; [lia|]. apply parseInt_number. safe_lia.
Qed.

Lemma counts_within_limit_serve env sv st req :
  counts_within_limit st -> counts_within_limit (store (serve env sv st req).2).
Proof.
  intros Hinv.
  destruct (store_after_serve env sv st req) as [-> | (_ & _ & Hge & _ & _ & ->)];
    [exact Hinv|].
  destruct (usage_seen_within env sv st req Hinv) as (c & Hc & Hrange).
  rewrite Hc in *. unfold js_ge, DAILY_LIMIT in *. apply Z.leb_gt in Hge.
  intros k en Hk.
  destruct (decide (usage_key sv req = k)) as [<-|Hne].
  - rewrite lookup_insert_eq in Hk. injection Hk as <-.
    exists (c + 1). split; [reflexivity | unfold DAILY_LIMIT; lia].
  - rewrite lookup_insert_ne in Hk by exact Hne. exact (Hinv _ _ Hk).
Qed.

(** X5. The handler keeps every counter of the store an integer between 1
    and the daily limit: if the store is so before a sequence of requests
    (of any callers, methods and bodies, at any times and with any failure
    of the store or of the upstream API) it is so after it.  The empty
    store is so: a store that only this handler writes never holds a count
    above 10, nor a value that is not a number. *)
Theorem counters_stay_within_limit env st reqs :
  counts_within_limit st ->
  counts_within_limit (serve_all env st reqs).2.
Proof.
  revert st. induction reqs as [|[sv req] reqs IH]; intros st Hinv; [exact Hinv|].
  cbn [serve_all snd]. apply IH. now apply counts_within_limit_serve.
Qed.

Lemma counters_stay_within_limit_witness :
  counts_within_limit
    (serve_all sample_env ∅
       [(sample_services, sample_request); (unreachable_services, sample_request);
        (sample_services, preflight_request); (sample_services, sample_request)]).2.
Proof.
  apply (counters_stay_within_limit sample_env ∅).
  intros k en Hk. rewrite lookup_empty in Hk. discriminate.
Defined.

(** The outcome of a request reads the store at one key only. *)
Lemma serve_local env sv st1 st2 req :
  st1 !! usage_key sv req = st2 !! usage_key sv req ->
  (serve env sv st1 req).1 = (serve env sv st2 req).1 /\
  effects (serve env sv st1 req).2 = effects (serve env sv st2 req).2.
Proof.
  intros Hkey.
  assert (Hseen : usage_seen env sv st1 req = usage_seen env sv st2 req).
  { unfold usage_seen, stored_value. now rewrite Hkey. }
  destruct (method_cases req) as [Hm | [Hm | [Ho Hp]]].
  - rewrite !(serve_options _ _ _ _ Hm). now split.
  - rewrite !(serve_post _ _ _ _ Hm). unfold post_outcome, world_after_call.
    rewrite Hseen.
    destruct (js_ge (usage_seen env sv st2 req) (JNum DAILY_LIMIT)); [now split|].
    destruct (upstream sv (upstream_request env req)) as [r|e]; [|now split].
    destruct (fr_ok r && bool_decide (is_Some (getRedis env)));
      [destruct (redis_set_fault sv)|]; now split.
  - rewrite !(serve_not_allowed _ _ _ _ Ho Hp). now split.
Qed.

(** X6. What a request gets and does depends on the store only through the
    entry of its own caller and date: on two stores that agree on that key
    the response and the effects are the same. *)
Theorem other_counters_invisible env sv st1 st2 req :
  st1 !! usage_key sv req = st2 !! usage_key sv req ->
  (serve env sv st1 req).1 = (serve env sv st2 req).1 /\
  effects (serve env sv st1 req).2 = effects (serve env sv st2 req).2.
Proof. exact (serve_local env sv st1 st2 req). Qed.

Lemma other_counters_invisible_witness :
  (serve sample_env sample_services
     (<["usage:fp-2:198.51.100.4:2026-11-02" := counter_entry 10]>
        (sample_store (VNum (JNum 3)))) sample_request).1
  = (serve sample_env sample_services (sample_store (VNum (JNum 3)))
       sample_request).1.
Proof.
  apply (other_counters_invisible sample_env sample_services
           (<["usage:fp-2:198.51.100.4:2026-11-02" := counter_entry 10]>
              (sample_store (VNum (JNum 3))))
           (sample_store (VNum (JNum 3))) sample_request).
  reflexivity.
Defined.

(** How the recorded count of a caller moves with one request. *)
Lemma recorded_step env sv st req u :
  method req = "POST" ->
  recorded_usage env sv st req u ->
  0 <= u <= MAX_SAFE_INTEGER ->
  (u < 10 ->
   redis_set_fault sv = None ->
   (exists r, upstream sv (upstream_request env req) = Normal r /\ fr_ok r = true) ->
   store (serve env sv st req).2 = <[usage_key sv req := counter_entry (u + 1)]> st /\
   recorded_usage env sv (store (serve env sv st req).2) req (u + 1) /\
   usage_seen env sv (store (serve env sv st req).2) req = JNum (u + 1)) /\
  (10 <= u \/
   (forall r, upstream sv (upstream_request env req) = Normal r -> fr_ok r = false) ->
   store (serve env sv st req).2 = st).
Proof.
  intros Hm Hrec Hsafe.
  assert (Hseen : usage_seen env sv st req = JNum u)
    by (apply usage_seen_recorded; [exact Hrec | safe_lia]).
  destruct Hrec as (Hredis & Hget & _).
  rewrite (serve_post _ _ _ _ Hm). unfold post_outcome, world_after_call.
  rewrite Hseen, (bool_decide_eq_true_2 _ Hredis). cbn [js_add].
  split.
  - intros Hu Hset (r & Hup & Hok).
    assert (Hge : js_ge (JNum u) (JNum DAILY_LIMIT) = false)
      by (apply Z.leb_gt; unfold DAILY_LIMIT; lia).
    rewrite Hge, Hup, Hok, Hset. cbn [andb snd store].
    split; [reflexivity|].
    assert (Hrec' : recorded_usage env sv
                      (<[usage_key sv req := counter_entry (u + 1)]> st) req (u + 1)).
    { split; [exact Hredis|]. split; [exact Hget|]. right.
      exists (Some 86400). apply lookup_insert_eq. }
    split; [exact Hrec' | apply usage_seen_recorded; [exact Hrec' | safe_lia]].
  - intros Hnot.
    destruct (js_ge (JNum u) (JNum DAILY_LIMIT)) eqn:Hge; [reflexivity|].
    destruct (upstream sv (upstream_request env req)) as [r|e] eqn:Hup; [|reflexivity].
    cbn [snd]. destruct (fr_ok r) eqn:Hok; [|reflexivity]. cbn [andb].
    exfalso. apply Z.leb_gt in Hge. unfold DAILY_LIMIT in Hge.
    destruct Hnot as [Hu | Hbad]; [lia|].
    specialize (Hbad r eq_refl). congruence.
Qed.

(** X7. The step of a counter.  For a POST request of a caller whose
    recorded count is [u], from 0 to [MAX_SAFE_INTEGER], on a store that
    answers the read: when [u < 10], the upstream API answers with a
    successful status and the write goes through, the store afterwards
    records [u + 1] for that caller, which is what the next request of the
    caller will read; when [u >= 10], or the upstream API does not answer
    with a successful status, the store is exactly what it was. *)
Theorem counter_step env sv st req u :
  method req = "POST" ->
  recorded_usage env sv st req u ->
  0 <= u <= MAX_SAFE_INTEGER ->
  (u < 10 ->
   redis_set_fault sv = None ->
   (exists r, upstream sv (upstream_request env req) = Normal r /\ fr_ok r = true) ->
   store (serve env sv st req).2 = <[usage_key sv req := counter_entry (u + 1)]> st /\
   recorded_usage env sv (store (serve env sv st req).2) req (u + 1) /\
   usage_seen env sv (store (serve env sv st req).2) req = JNum (u + 1)) /\
  (10 <= u \/
   (forall r, upstream sv (upstream_request env req) = Normal r -> fr_ok r = false) ->
   store (serve env sv st req).2 = st).
Proof. exact (recorded_step env sv st req u). Qed.

Lemma counter_step_witness :
  store (serve sample_env sample_services (sample_store (VNum (JNum 9)))
           sample_request).2
  = <[sample_key := counter_entry 10]> (sample_store (VNum (JNum 9))) /\
  store (serve sample_env sample_services (sample_store (VNum (JNum 10)))
           sample_request).2
  = sample_store (VNum (JNum 10)).
Proof.
  split.
  - refine (proj1 (proj1 (counter_step sample_env sample_services
                            (sample_store (VNum (JNum 9))) sample_request 9
                            eq_refl _ _) _ eq_refl _)).
    + split; [eexists; reflexivity|]. split; [reflexivity|].
      right. eexists. reflexivity.
    + safe_lia.
    + lia.
    + exists sample_reply. split; reflexivity.
  - refine (proj2 (counter_step sample_env sample_services
                     (sample_store (VNum (JNum 10))) sample_request 10
                     eq_refl _ _) _).
    + split; [eexists; reflexivity|]. split; [reflexivity|].
      right. eexists. reflexivity.
    + safe_lia.
    + left. lia.
Defined.

(** X8. A read that throws resets the counter.  When the store is
    configured but the read throws, the handler goes on with the count 0;
    if the upstream API then answers with a successful status and the write
    goes through, the caller's counter is overwritten with 1, whatever it
    held before. *)
Theorem failed_read_resets_counter env sv st req r :
  method req = "POST" ->
  is_Some (getRedis env) ->
  is_Some (redis_get_fault sv) ->
  redis_set_fault sv = None ->
  upstream sv (upstream_request env req) = Normal r ->
  fr_ok r = true ->
  store (serve env sv st req).2 = <[usage_key sv req := counter_entry 1]> st.
Proof.
  intros Hm Hredis Hget Hset Hup Hok.
  assert (Hseen : usage_seen env sv st req = JNum 0)
    by (apply usage_seen_fail_open; now right).
  rewrite (serve_post _ _ _ _ Hm). unfold post_outcome, world_after_call.
  rewrite Hseen, Hup, Hok, Hset, (bool_decide_eq_true_2 _ Hredis).
  reflexivity.
Qed.

Lemma failed_read_resets_counter_witness :
  store (serve sample_env
           {| now_iso := now_iso sample_services;
              redis_get_fault := Some "ETIMEDOUT";
              redis_set_fault := None;
              upstream := upstream sample_services |}
           (sample_store (VNum (JNum 9))) sample_request).2 !! sample_key
  = Some (counter_entry 1).
Proof.
  rewrite (failed_read_resets_counter sample_env
             {| now_iso := now_iso sample_services;
                redis_get_fault := Some "ETIMEDOUT";
                redis_set_fault := None;
                upstream := upstream sample_services |}
             (sample_store (VNum (JNum 9))) sample_request sample_reply);
    try reflexivity; eexists; reflexivity.
Defined.

(** X9. The read of the upstream body is outside every [try] (line 98).
    When a POST request passes the quota check, the upstream call
    completes and the body of its response cannot be read, the handler
    ends with the exception thrown by the read and produces no response.
    That happens after the counter was written: the write was sent if the
    upstream status was successful and the store is configured, and if it
    went through the request is counted although the caller gets no
    response from the handler. *)
Theorem body_read_failure_uncaught env sv st req r e :
  method req = "POST" ->
  js_ge (usage_seen env sv st req) (JNum DAILY_LIMIT) = false ->
  upstream sv (upstream_request env req) = Normal r ->
  fr_text r = Throw e ->
  (serve env sv st req).1 = Throw e /\
  store_writes (effects (serve env sv st req).2)
  = (if fr_ok r && bool_decide (is_Some (getRedis env))
     then [RedisSet (usage_key sv req)
             (VNum (js_add (usage_seen env sv st req) (JNum 1))) 86400]
     else []) /\
  (fr_ok r = true -> is_Some (getRedis env) -> redis_set_fault sv = None ->
   store (serve env sv st req).2 !! usage_key sv req
   = Some {| entry_value := VNum (js_add (usage_seen env sv st req) (JNum 1));
             entry_ex := Some 86400 |}).
Proof.
  intros Hm Hge Hup Htext.
  rewrite (serve_relayed _ _ _ _ _ Hm Hge Hup), Htext. cbn [fst snd].
  split; [reflexivity|]. unfold world_after_call. split.
  - destruct (fr_ok r && bool_decide (is_Some (getRedis env)));
      [destruct (redis_set_fault sv)|];
      cbn [effects]; rewrite store_writes_app, store_writes_read; reflexivity.
  - intros Hok Hredis Hset.
    rewrite Hok, Hset, (bool_decide_eq_true_2 _ Hredis). cbn [andb store].
    apply lookup_insert_eq.
Qed.

Lemma body_read_failure_uncaught_witness :
  (serve sample_env broken_services (sample_store (VNum (JNum 3)))
     sample_request).1 = Throw "terminated" /\
  store (serve sample_env broken_services (sample_store (VNum (JNum 3)))
           sample_request).2 !! sample_key
  = Some (counter_entry 4).
Proof.
  destruct (body_read_failure_uncaught sample_env broken_services
              (sample_store (VNum (JNum 3))) sample_request broken_reply
              "terminated" eq_refl eq_refl eq_refl eq_refl)
    as (Hout & _ & Hstore).
  split; [exact Hout|].
  refine (Hstore eq_refl _ eq_refl). eexists. reflexivity.
Defined.

(** X10. The status codes.  A response of the handler has status 200 with
    no body for OPTIONS, 405 for another method than POST, and for POST:
    429 when the count read is at least 10, 502 when the upstream call
    throws, and otherwise the status of the upstream response, whatever it
    is, with the upstream body. *)
Theorem status_codes env sv st req res :
  (serve env sv st req).1 = Normal res ->
  (method req = "OPTIONS" /\ statusCode res = 200 /\ payload res = NoBody) \/
  (method req <> "OPTIONS" /\ method req <> "POST" /\ statusCode res = 405) \/
  (method req = "POST" /\
   js_ge (usage_seen env sv st req) (JNum DAILY_LIMIT) = true /\
   statusCode res = 429) \/
  (method req = "POST" /\
   js_ge (usage_seen env sv st req) (JNum DAILY_LIMIT) = false /\
   (exists e, upstream sv (upstream_request env req) = Throw e) /\
   statusCode res = 502) \/
  (method req = "POST" /\
   js_ge (usage_seen env sv st req) (JNum DAILY_LIMIT) = false /\
   exists r b,
     upstream sv (upstream_request env req) = Normal r /\
     fr_text r = Normal b /\
     statusCode res = fr_status r /\ payload res = TextBody b).
Proof.
  destruct (method_cases req) as [Hm | [Hm | [Ho Hp]]].
  - rewrite (serve_options _ _ _ _ Hm). intros [= <-]. left. now repeat split.
  - rewrite (serve_post _ _ _ _ Hm). unfold post_outcome.
    destruct (js_ge (usage_seen env sv st req) (JNum DAILY_LIMIT)).
    + intros [= <-]. right; right; left. now repeat split.
    + destruct (upstream sv (upstream_request env req)) as [r|e] eqn:Hup; cbn [fst].
      * destruct (fr_text r) as [b|e] eqn:Htext; [|discriminate]. intros [= <-].
        do 4 right. split; [exact Hm|]. split; [reflexivity|]. exists r, b.
        now repeat split.
      * intros [= <-]. do 3 right; left. split; [exact Hm|]. split; [reflexivity|].
        split; [eauto | reflexivity].
  - rewrite (serve_not_allowed _ _ _ _ Ho Hp). intros [= <-].
    right; left. now repeat split.
Qed.

Lemma status_codes_witness :
  exists r b,
    upstream sample_services (upstream_request sample_env sample_request)
    = Normal r /\
    fr_text r = Normal b /\
    statusCode (relayed_response (JNum 3) sample_reply "{}") = fr_status r /\
    payload (relayed_response (JNum 3) sample_reply "{}") = TextBody b.
Proof.
  destruct (status_codes sample_env sample_services (sample_store (VNum (JNum 3)))
              sample_request (relayed_response (JNum 3) sample_reply "{}"))
    as [(Hm & _) | [(_ & Hp & _) | [(_ & Hge & _) | [(_ & _ & (e & He) & _) | H]]]].
  - reflexivity.
  - discriminate Hm.
  - exfalso. apply Hp. reflexivity.
  - discriminate Hge.
  - discriminate He.
  - exact (proj2 (proj2 H)).
Defined.

(** One step of the daily quota: what a request of a caller with a
    recorded count gets, on a working store and with an upstream API that
    answers [r] with a successful status. *)
Lemma quota_step env sv st req u r b :
  method req = "POST" ->
  recorded_usage env sv st req u ->
  0 <= u <= 10 ->
  redis_set_fault sv = None ->
  upstream sv (upstream_request env req) = Normal r ->
  fr_ok r = true ->
  fr_text r = Normal b ->
  (u < 10 ->
   (serve env sv st req).1 = Normal (relayed_response (JNum u) r b) /\
   recorded_usage env sv (store (serve env sv st req).2) req (u + 1)) /\
  (10 <= u ->
   (serve env sv st req).1 = Normal (limited_response (JNum u)) /\
   store (serve env sv st req).2 = st).
Proof.
  intros Hm Hrec Hrange Hset Hup Hok Htext.
  assert (Hseen : usage_seen env sv st req = JNum u)
    by (apply usage_seen_recorded; [exact Hrec | safe_lia]).
  split; intros Hu.
  - split.
    + rewrite (serve_relayed _ _ _ _ r Hm), Htext, Hseen; [reflexivity | | exact Hup].
      rewrite Hseen. apply Z.leb_gt. unfold DAILY_LIMIT. lia.
    + destruct (recorded_step env sv st req u Hm Hrec ltac:(safe_lia)) as [Hstep _].
      apply Hstep; eauto.
  - rewrite (serve_limited _ _ _ _ Hm), Hseen; [now split|].
    rewrite Hseen. apply Z.leb_le. unfold DAILY_LIMIT. lia.
Qed.

(** X11. The daily quota, for requests that come one after the other.
    Take any POST requests of one caller on one UTC date, each at its own
    moment and with its own headers and body, as long as all of them give
    the same key; the store works and the upstream API answers each with a
    successful status and a readable body.  If the count recorded for the
    caller is [u], from 0 to 10, the requests are served as long as the
    count is below 10, request number [k] (from 0) seeing the count
    [u + k] and getting its own upstream answer, and every later one is
    rejected with 429 and [used] 10; the count recorded in the end is [u]
    plus the number of requests, capped at 10. *)
Theorem daily_quota env key xs st u :
  is_Some (getRedis env) ->
  Forall (counted_exchange env key) xs ->
  stored_count st key u ->
  0 <= u <= 10 ->
  (serve_all env st (arrivals xs)).1
  = imap (fun (k : nat) (x : Exchange) =>
            Normal (if bool_decide (u + Z.of_nat k < 10)
                    then relayed_response (JNum (u + Z.of_nat k))
                           (reply_of x) (body_of x)
                    else limited_response (JNum 10))) xs /\
  stored_count (serve_all env st (arrivals xs)).2 key
    (Z.min (u + Z.of_nat (List.length xs)) 10).
Proof.
  intros Hredis Hall. revert st u.
  induction Hall as [|x xs Hx Hall IH]; intros st u Hst Hu.
  - cbn [arrivals map serve_all imap List.length fst snd].
    split; [reflexivity|]. rewrite Z.add_0_r, Z.min_l by lia. exact Hst.
  - destruct Hx as (Hm & Hkey & Hget & Hset & Hup & Hok & Htext).
    assert (Hrec : recorded_usage env (at_moment x) st (request_of x) u).
    { split; [exact Hredis|]. split; [exact Hget|]. rewrite Hkey. exact Hst. }
    destruct (quota_step env (at_moment x) st (request_of x) u (reply_of x)
                (body_of x) Hm Hrec Hu Hset Hup Hok Htext) as [Hbelow Hfull].
    unfold arrivals. cbn [map serve_all fst snd List.length]. fold (arrivals xs).
    rewrite imap_cons, Z.add_0_r.
    destruct (decide (u < 10)) as [Hlt | Hge].
    + destruct (Hbelow Hlt) as [-> (_ & _ & Hst')]. rewrite Hkey in Hst'.
      destruct (IH _ (u + 1) Hst' ltac:(lia)) as [-> Hend].
      rewrite (bool_decide_eq_true_2 _ Hlt). split.
      * f_equal. apply imap_ext. intros k y _. cbn [compose].
        replace (u + 1 + Z.of_nat k) with (u + Z.of_nat (S k)) by lia.
        reflexivity.
      * replace (u + Z.of_nat (S (List.length xs)))
          with (u + 1 + Z.of_nat (List.length xs)) by lia.
        exact Hend.
    + assert (u = 10) as -> by lia.
      destruct (Hfull ltac:(lia)) as [-> ->].
      destruct (IH _ 10 Hst ltac:(lia)) as [-> Hend].
      rewrite (bool_decide_eq_false_2 (10 < 10)) by lia. split.
      * f_equal. apply imap_ext. intros k y _. cbn [compose].
        rewrite !(bool_decide_eq_false_2 (10 + _ < 10)) by lia. reflexivity.
      * rewrite Z.min_r in * by lia. exact Hend.
Qed.

Lemma daily_quota_witness :
  (serve_all sample_env (sample_store (VNum (JNum 8)))
     (arrivals [morning_exchange; evening_exchange; morning_exchange])).1
  = [Normal (relayed_response (JNum 8) sample_reply "{}");
     Normal (relayed_response (JNum 9) later_reply "created");
     Normal (limited_response (JNum 10))] /\
  stored_count
    (serve_all sample_env (sample_store (VNum (JNum 8)))
       (arrivals [morning_exchange; evening_exchange; morning_exchange])).2
    sample_key 10.
Proof.
  apply (daily_quota sample_env sample_key
           [morning_exchange; evening_exchange; morning_exchange]
           (sample_store (VNum (JNum 8))) 8).
  - eexists. reflexivity.
  - repeat (constructor; [repeat split|]). constructor.
  - right. eexists. reflexivity.
  - lia.
Defined.

(** The read of the count, from any world. *)
Lemma read_usage_run env sv req st es :
  read_usage env sv req {| store := st; effects := es |}
  = (Normal (usage_seen env sv st req),
     {| store := st; effects := es ++ read_effects env sv req |}).
Proof.
  unfold read_usage, usage_seen, read_effects,
    mbind, M_bind, mret, M_ret, try_catch, redis_get, console_error, perform.
  cbn [store effects].
  destruct (getRedis env); [destruct (redis_get_fault sv)|];
    cbn [store effects]; rewrite <- ?app_assoc, ?app_nil_r; reflexivity.
Qed.

(** The response to a count below the limit, from any world, when the
    upstream API answers with a successful status and the write goes
    through. *)
Lemma respond_counted env sv req currentUsage st es r b :
  js_ge currentUsage (JNum DAILY_LIMIT) = false ->
  is_Some (getRedis env) ->
  redis_set_fault sv = None ->
  upstream sv (upstream_request env req) = Normal r ->
  fr_ok r = true ->
  fr_text r = Normal b ->
  respond env sv req currentUsage {| store := st; effects := es |}
  = (Normal (relayed_response currentUsage r b),
     {| store := <[usage_key sv req :=
                     {| entry_value := VNum (js_add currentUsage (JNum 1));
                        entry_ex := Some 86400 |}]> st;
        effects := es ++ [Fetch (upstream_request env req);
                          RedisSet (usage_key sv req)
                            (VNum (js_add currentUsage (JNum 1))) 86400] |}).
Proof.
  intros Hge Hredis Hset Hup Hok Htext.
  unfold respond, mbind, M_bind, mret, M_ret, try_catch, redis_set, fetch, text,
    console_error, perform.
  cbn [store effects]. rewrite Hge, Hup, Hok, (bool_decide_eq_true_2 _ Hredis), Hset.
  cbn [andb store effects]. rewrite Htext, <- app_assoc. reflexivity.
Qed.

(** X12. No lock around the read and the write.  When two POST requests of
    the same caller both read the count before either goes on, both see
    the same count [u], from 0 to 9, and both are forwarded and served, and
    the counter ends at [u + 1]: one of the two is not counted.  With
    [u = 9] two requests are served although one was left in the quota. *)
Theorem interleaved_requests_both_served env sv st reqA reqB u rA bA rB bB :
  method reqA = "POST" ->
  method reqB = "POST" ->
  usage_key sv reqA = usage_key sv reqB ->
  recorded_usage env sv st reqA u ->
  0 <= u < 10 ->
  redis_set_fault sv = None ->
  upstream sv (upstream_request env reqA) = Normal rA ->
  fr_ok rA = true ->
  fr_text rA = Normal bA ->
  upstream sv (upstream_request env reqB) = Normal rB ->
  fr_ok rB = true ->
  fr_text rB = Normal bB ->
  (interleaved env sv reqA reqB {| store := st; effects := [] |}).1
  = Normal (relayed_response (JNum u) rA bA, relayed_response (JNum u) rB bB) /\
  store (interleaved env sv reqA reqB {| store := st; effects := [] |}).2
  = <[usage_key sv reqA := counter_entry (u + 1)]> st /\
  upstream_calls (effects (interleaved env sv reqA reqB
                             {| store := st; effects := [] |}).2)
  = [upstream_request env reqA; upstream_request env reqB].
Proof.
  intros HmA HmB Hkey Hrec Hu Hset HupA HokA HtextA HupB HokB HtextB.
  assert (HrecB : recorded_usage env sv st reqB u).
  { unfold recorded_usage in *. rewrite Hkey in Hrec. exact Hrec. }
  assert (HseenA : usage_seen env sv st reqA = JNum u)
    by (apply usage_seen_recorded; [exact Hrec | safe_lia]).
  assert (HseenB : usage_seen env sv st reqB = JNum u)
    by (apply usage_seen_recorded; [exact HrecB | safe_lia]).
  assert (Hge : js_ge (JNum u) (JNum DAILY_LIMIT) = false)
    by (apply Z.leb_gt; unfold DAILY_LIMIT; lia).
  destruct Hrec as (Hredis & _ & _).
  assert (Hrun :
    interleaved env sv reqA reqB {| store := st; effects := [] |}
    = (Normal (relayed_response (JNum u) rA bA, relayed_response (JNum u) rB bB),
       {| store := <[usage_key sv reqB := counter_entry (u + 1)]>
                     (<[usage_key sv reqA := counter_entry (u + 1)]> st);
          effects := (((read_effects env sv reqA ++ read_effects env sv reqB)
                       ++ [Fetch (upstream_request env reqA);
                           RedisSet (usage_key sv reqA) (VNum (JNum (u + 1))) 86400])
                      ++ [Fetch (upstream_request env reqB);
                          RedisSet (usage_key sv reqB) (VNum (JNum (u + 1))) 86400]) |})).
  { unfold interleaved, mbind, M_bind.
    rewrite read_usage_run, read_usage_run, HseenA, HseenB.
    rewrite (respond_counted env sv reqA (JNum u) _ _ rA bA) by assumption.
    rewrite (respond_counted env sv reqB (JNum u) _ _ rB bB) by assumption.
    reflexivity. }
  rewrite Hrun. cbn [fst snd store effects].
  split; [reflexivity|]. split.
  - rewrite <- Hkey. apply insert_insert_eq.
  - rewrite !upstream_calls_app, !upstream_calls_read. reflexivity.
Qed.

Lemma interleaved_requests_both_served_witness :
  (interleaved sample_env sample_services sample_request sample_request
     {| store := sample_store (VNum (JNum 9)); effects := [] |}).1
  = Normal (relayed_response (JNum 9) sample_reply "{}",
            relayed_response (JNum 9) sample_reply "{}") /\
  (serve_all sample_env (sample_store (VNum (JNum 9)))
     [(sample_services, sample_request); (sample_services, sample_request)]).1
  = [Normal (relayed_response (JNum 9) sample_reply "{}");
     Normal (limited_response (JNum 10))].
Proof.
  split; [|reflexivity].
  refine (proj1 (interleaved_requests_both_served sample_env sample_services
                   (sample_store (VNum (JNum 9))) sample_request sample_request
                   9 sample_reply "{}" sample_reply "{}"
                   eq_refl eq_refl eq_refl _ _ eq_refl eq_refl eq_refl eq_refl
                   eq_refl eq_refl eq_refl)).
  - split; [eexists; reflexivity|]. split; [reflexivity|].
    right. eexists. reflexivity.
  - lia.
Defined.

(** ** The key of a caller *)

Lemma split_first_app (sep : ascii) (a rest : string) :
  occurs sep a = false ->
  split_first sep (a +:+ String sep rest) = a.
Proof.
  induction a as [|c a IH]; intros Hocc.
  - rewrite app_nil_string. cbn [split_first]. now rewrite Ascii.eqb_refl.
  - cbn [occurs] in Hocc. apply orb_false_elim in Hocc as [Hc Ha].
    rewrite app_cons_string. cbn [split_first]. now rewrite Hc, IH.
Qed.

Lemma split_first_whole (sep : ascii) (a : string) :
  occurs sep a = false -> split_first sep a = a.
Proof.
  induction a as [|c a IH]; intros Hocc; [reflexivity|].
  cbn [occurs] in Hocc. apply orb_false_elim in Hocc as [Hc Ha].
  cbn [split_first]. now rewrite Hc, IH.
Qed.

Lemma trimStart_blank (s : string) : blank s = true -> trimStart s = EmptyString.
Proof.
  induction s as [|c s IH]; [reflexivity|]. cbn [blank trimStart].
  intros [Hc Hs]%andb_prop. now rewrite Hc, IH.
Qed.

Lemma trim_blank (s : string) : blank s = true -> trim s = EmptyString.
Proof. intros Hs. unfold trim. now rewrite trimStart_blank. Qed.

(** X13. Only the first address of [X-Forwarded-For] identifies the
    caller: whatever follows the first comma has no influence on the key
    of the counter. *)
Theorem first_forwarded_address env sv st req a rest :
  occurs ","%char a = false ->
  usage_key sv (with_header "x-forwarded-for" (a +:+ "," +:+ rest) req)
  = usage_key sv (with_header "x-forwarded-for" a req) /\
  usage_seen env sv st (with_header "x-forwarded-for" (a +:+ "," +:+ rest) req)
  = usage_seen env sv st (with_header "x-forwarded-for" a req).
Proof.
  intros Ha.
  assert (Hkey : usage_key sv (with_header "x-forwarded-for" (a +:+ "," +:+ rest) req)
                 = usage_key sv (with_header "x-forwarded-for" a req)).
  { unfold usage_key, identifier, clientId, clientIP, with_header. cbn [headers].
    rewrite !lookup_insert_eq. cbn [fmap option_fmap option_map].
    change ("," +:+ rest) with (String ","%char rest).
    rewrite !lookup_insert_ne by discriminate.
    now rewrite split_first_app, split_first_whole. }
  split; [exact Hkey|]. unfold usage_seen. now rewrite Hkey.
Qed.

Lemma first_forwarded_address_witness :
  usage_key sample_services
    (with_header "x-forwarded-for" ("203.0.113.7" +:+ "," +:+ " 192.0.2.1, 10.0.0.1")
       sample_request)
  = sample_key.
Proof.
  rewrite (proj1 (first_forwarded_address sample_env sample_services ∅
                    sample_request "203.0.113.7" " 192.0.2.1, 10.0.0.1" eq_refl)).
  reflexivity.
Defined.

(** X14. Callers that cannot be told apart share one counter.  When the
    client identifier is missing or empty, and the forwarded address is
    missing or its first entry is empty or blank, both parts of the
    identity are the text unknown and the key is the same for all such
    requests of the day. *)
Theorem anonymous_callers_share_key sv req :
  absent_or_empty (headers req !! "x-client-id") ->
  headers req !! "x-forwarded-for" = None \/
  (exists v, headers req !! "x-forwarded-for" = Some v /\
             blank (split_first ","%char v) = true) ->
  usage_key sv req = "usage:unknown:unknown:" +:+ today sv.
Proof.
  intros Hid Hip. unfold usage_key, identifier, clientId, clientIP.
  assert (Hc : js_or (env_value (headers req !! "x-client-id")) (VStr "unknown")
               = VStr "unknown") by (destruct Hid as [-> | ->]; reflexivity).
  assert (Ha : js_or (env_value ((fun s => trim (split_first ","%char s))
                                   <$> headers req !! "x-forwarded-for"))
                 (VStr "unknown") = VStr "unknown").
  { destruct Hip as [-> | (v & -> & Hv)]; [reflexivity|].
    cbn [fmap option_fmap option_map env_value]. now rewrite trim_blank. }
  rewrite Hc, Ha. reflexivity.
Qed.

Lemma anonymous_callers_share_key_witness :
  usage_key sample_services
    {| method := "POST";
       headers := {[ "x-forwarded-for" := "  , 203.0.113.7" ]};
       body := VNull |}
  = "usage:unknown:unknown:" +:+ today sample_services.
Proof.
  apply (anonymous_callers_share_key sample_services
           {| method := "POST";
              headers := {[ "x-forwarded-for" := "  , 203.0.113.7" ]};
              body := VNull |}).
  - left. reflexivity.
  - right. exists "  , 203.0.113.7". split; reflexivity.
Defined.

(** X15. The identity is ambiguous.  The two parts are joined with a
    colon and neither is escaped, so a colon inside a part moves the
    border: the client [a:b] at address [c] and the client [a] at address
    [b:c] have the same counter. *)
Theorem identity_is_ambiguous sv req a b c :
  a <> EmptyString ->
  c <> EmptyString ->
  trim (split_first ","%char c) = c ->
  trim (split_first ","%char (b +:+ ":" +:+ c)) = b +:+ ":" +:+ c ->
  usage_key sv
    (with_header "x-client-id" (a +:+ ":" +:+ b) (with_header "x-forwarded-for" c req))
  = usage_key sv
      (with_header "x-client-id" a (with_header "x-forwarded-for" (b +:+ ":" +:+ c) req)).
Proof.
  intros Ha Hc Htc Htbc.
  unfold usage_key, identifier, clientId, clientIP, with_header. cbn [headers].
  repeat (rewrite lookup_insert_eq || rewrite lookup_insert_ne by discriminate).
  cbn [fmap option_fmap option_map env_value]. rewrite Htc, Htbc.
  assert (Hne : forall x y : string, x <> EmptyString ->
            js_or (VStr (x +:+ y)) (VStr "unknown") = VStr (x +:+ y)).
  { intros [|x0 x] y Hx; [congruence | reflexivity]. }
  assert (Hne' : forall x : string, x <> EmptyString ->
            js_or (VStr x) (VStr "unknown") = VStr x).
  { intros [|x0 x] Hx; [congruence | reflexivity]. }
  rewrite (Hne a _ Ha), (Hne' a Ha), (Hne' c Hc).
  assert (Hbc : js_or (VStr (b +:+ ":" +:+ c)) (VStr "unknown")
                = VStr (b +:+ ":" +:+ c)).
  { destruct b as [|b0 b]; [|reflexivity].
    rewrite app_nil_string. reflexivity. }
  rewrite Hbc. cbn [js_toString]. f_equal. f_equal.
  now rewrite !app_assoc_string.
Qed.

Lemma identity_is_ambiguous_witness :
  usage_key sample_services
    (with_header "x-client-id" ("fp-1" +:+ ":" +:+ "2001")
       (with_header "x-forwarded-for" "db8::7" sample_request))
  = usage_key sample_services
      (with_header "x-client-id" "fp-1"
         (with_header "x-forwarded-for" ("2001" +:+ ":" +:+ "db8::7") sample_request)).
Proof.
  apply (identity_is_ambiguous sample_services sample_request "fp-1" "2001" "db8::7");
    (discriminate || reflexivity).
Defined.

(** X16. One counter per UTC date.  The key holds the part of the ISO
    time stamp before the letter T and nothing of the time of day: two
    requests of the same caller have the same key exactly when they are
    made on the same date. *)
Theorem key_per_utc_date sv1 sv2 req d1 t1 d2 t2 :
  now_iso sv1 = d1 +:+ "T" +:+ t1 ->
  now_iso sv2 = d2 +:+ "T" +:+ t2 ->
  occurs "T"%char d1 = false ->
  occurs "T"%char d2 = false ->
  usage_key sv1 req = "usage:" +:+ identifier req +:+ ":" +:+ d1 /\
  (usage_key sv1 req = usage_key sv2 req <-> d1 = d2).
Proof.
  intros H1 H2 Hd1 Hd2.
  assert (Ht1 : today sv1 = d1).
  { unfold today. rewrite H1. change ("T" +:+ t1) with (String "T"%char t1).
    now apply split_first_app. }
  assert (Ht2 : today sv2 = d2).
  { unfold today. rewrite H2. change ("T" +:+ t2) with (String "T"%char t2).
    now apply split_first_app. }
  unfold usage_key. rewrite Ht1, Ht2. split; [reflexivity|]. split.
  - intros Heq. do 3 apply String.app_inj in Heq. exact Heq.
  - now intros ->.
Qed.

Lemma key_per_utc_date_witness :
  usage_key sample_services sample_request
  = "usage:" +:+ identifier sample_request +:+ ":" +:+ "2026-11-02" /\
  (usage_key sample_services sample_request
   = usage_key {| now_iso := "2026-11-03T00:00:00.000Z";
                  redis_get_fault := None; redis_set_fault := None;
                  upstream := upstream sample_services |} sample_request
   <-> "2026-11-02" = "2026-11-03").
Proof.
  apply (key_per_utc_date sample_services
           {| now_iso := "2026-11-03T00:00:00.000Z";
              redis_get_fault := None; redis_set_fault := None;
              upstream := upstream sample_services |}
           sample_request "2026-11-02" "10:15:30.000Z" "2026-11-03" "00:00:00.000Z");
    reflexivity.
Defined.

(** ** What the handler sends out *)

Lemma calls_made_app es fs : calls_made (es ++ fs) = calls_made es ++ calls_made fs.
Proof. apply List.filter_app. Qed.

Lemma calls_made_read env sv req :
  calls_made (read_effects env sv req)
  = match getRedis env with
    | Some _ => [RedisGet (usage_key sv req)]
    | None => []
    end.
Proof.
  unfold read_effects. destruct (getRedis env); [|reflexivity].
  destruct (redis_get_fault sv); reflexivity.
Qed.

(** X17. The handler repeats no call and the order is fixed.  Whatever
    happens, for one request the handler calls [redis.get] at most once,
    with the caller's key, then [fetch] at most once, then [redis.set] at
    most once, with the count it read plus one, in this order.  What a
    call does on the wire is the client's. *)
Theorem calls_in_order env sv st req :
  sublist (calls_made (effects (serve env sv st req).2))
    [RedisGet (usage_key sv req);
     Fetch (upstream_request env req);
     RedisSet (usage_key sv req)
       (VNum (js_add (usage_seen env sv st req) (JNum 1))) 86400].
Proof.
  destruct (method_cases req) as [Hm | [Hm | [Ho Hp]]].
  - rewrite (serve_options _ _ _ _ Hm). apply sublist_nil_l.
  - rewrite (serve_post _ _ _ _ Hm). unfold post_outcome, world_after_call.
    destruct (js_ge (usage_seen env sv st req) (JNum DAILY_LIMIT)).
    { cbn [snd effects]. rewrite calls_made_read.
      destruct (getRedis env); [|apply sublist_nil_l].
      apply sublist_skip, sublist_nil_l. }
    destruct (upstream sv (upstream_request env req)) as [r|e].
    + destruct (fr_ok r); cbn [andb].
      * destruct (getRedis env) as [c|] eqn:Hredis.
        -- rewrite (bool_decide_eq_true_2 (is_Some (Some c))) by eauto.
           destruct (redis_set_fault sv); cbn [snd effects];
             rewrite calls_made_app, calls_made_read, Hredis; reflexivity.
        -- rewrite (bool_decide_eq_false_2 (is_Some None))
             by (intros [? ?]; discriminate).
           cbn [snd effects]. rewrite calls_made_app, calls_made_read, Hredis.
           apply sublist_cons, sublist_skip, sublist_nil_l.
      * cbn [snd effects]. rewrite calls_made_app, calls_made_read.
        destruct (getRedis env).
        -- apply sublist_skip, sublist_skip, sublist_cons, sublist_nil_l.
        -- apply sublist_cons, sublist_skip, sublist_nil_l.
    + cbn [snd effects]. rewrite calls_made_app, calls_made_read.
      destruct (getRedis env).
      * apply sublist_skip, sublist_skip, sublist_cons, sublist_nil_l.
      * apply sublist_cons, sublist_skip, sublist_nil_l.
  - rewrite (serve_not_allowed _ _ _ _ Ho Hp). apply sublist_nil_l.
Qed.

(** The lines on the console, computed from the calls that failed. *)
Lemma console_serve env sv st req :
  console (effects (serve env sv st req).2)
  = if bool_decide (method req = "POST") then
      (if bool_decide (is_Some (getRedis env)) then
         match redis_get_fault sv with
         | Some e => [("Redis read error:", e)]
         | None => []
         end
       else [])
      ++ (if js_ge (usage_seen env sv st req) (JNum DAILY_LIMIT) then []
          else
            match upstream sv (upstream_request env req) with
            | Throw e => [("Anthropic API error:", e)]
            | Normal r =>
                if fr_ok r && bool_decide (is_Some (getRedis env)) then
                  match redis_set_fault sv with
                  | Some e => [("Redis write error:", e)]
                  | None => []
                  end
                else []
            end)
    else [].
Proof.
  destruct (method_cases req) as [Hm | [Hm | [Ho Hp]]].
  - rewrite (serve_options _ _ _ _ Hm).
    rewrite bool_decide_eq_false_2 by (rewrite Hm; discriminate). reflexivity.
  - rewrite (serve_post _ _ _ _ Hm), (bool_decide_eq_true_2 _ Hm).
    unfold post_outcome, world_after_call, read_effects.
    destruct (js_ge (usage_seen env sv st req) (JNum DAILY_LIMIT));
      [|destruct (upstream sv (upstream_request env req)) as [r|e'];
        [destruct (fr_ok r)|]];
      destruct (getRedis env) as [c|];
      rewrite ?(bool_decide_eq_true_2 (is_Some (Some c))) by eauto;
      rewrite ?(bool_decide_eq_false_2 (is_Some None))
        by (intros [? ?]; discriminate);
      cbn [andb];
      destruct (redis_get_fault sv);
      destruct (redis_set_fault sv);
      reflexivity.
  - rewrite (serve_not_allowed _ _ _ _ Ho Hp).
    rewrite (bool_decide_eq_false_2 _ Hp). reflexivity.
Qed.

(** X18. The console holds nothing but failures.  The lines the handler
    writes to the console are, in this order: the message of the failed
    read with the value the read threw, the message of the failed upstream
    call with the value [fetch] threw, the message of the failed write
    with the value the write threw; each is there exactly when that call
    was made and threw, and a request without failure logs nothing.  The
    handler passes nothing else to the console: two requests that differ
    in headers, body, stored count or API key log the same lines when they
    take the same path and the upstream call throws the same value. *)
Theorem console_only_failures env sv st req :
  console (effects (serve env sv st req).2)
  = (if bool_decide (method req = "POST") then
       (if bool_decide (is_Some (getRedis env)) then
          match redis_get_fault sv with
          | Some e => [("Redis read error:", e)]
          | None => []
          end
        else [])
       ++ (if js_ge (usage_seen env sv st req) (JNum DAILY_LIMIT) then []
           else
             match upstream sv (upstream_request env req) with
             | Throw e => [("Anthropic API error:", e)]
             | Normal r =>
                 if fr_ok r && bool_decide (is_Some (getRedis env)) then
                   match redis_set_fault sv with
                   | Some e => [("Redis write error:", e)]
                   | None => []
                   end
                 else []
             end)
     else []) /\
  (forall env' st' req',
     method req' = method req ->
     bool_decide (is_Some (getRedis env')) = bool_decide (is_Some (getRedis env)) ->
     js_ge (usage_seen env' sv st' req') (JNum DAILY_LIMIT)
     = js_ge (usage_seen env sv st req) (JNum DAILY_LIMIT) ->
     thrown_or_ok (upstream sv (upstream_request env' req'))
     = thrown_or_ok (upstream sv (upstream_request env req)) ->
     console (effects (serve env' sv st' req').2)
     = console (effects (serve env sv st req).2)).
Proof.
  split; [apply console_serve|].
  intros env' st' req' Hm Hredis Hge Hup.
  rewrite !console_serve, Hm, Hredis, Hge.
  destruct (upstream sv (upstream_request env' req')) as [r'|e'];
    destruct (upstream sv (upstream_request env req)) as [r|e];
    cbn [thrown_or_ok] in Hup; try discriminate.
  - injection Hup as ->. reflexivity.
  - injection Hup as ->. reflexivity.
Qed.

(** X19. The headers the handler sets.  A response to a request other
    than OPTIONS carries no header set by the handler (405, 502) or exactly
    the two quota headers (429, relayed response): the headers of the
    upstream response are not passed on, and the CORS headers of the
    preflight are not set on the response that the browser then reads. *)
Theorem response_headers_quota_only env sv st req res :
  method req <> "OPTIONS" ->
  (serve env sv st req).1 = Normal res ->
  (res_headers res = [] \/
   exists remaining,
     res_headers res
     = [("X-RateLimit-Limit", "10"); ("X-RateLimit-Remaining", remaining)]) /\
  getHeader "Access-Control-Allow-Origin" res = None.
Proof.
  intros Ho.
  destruct (method_cases req) as [Hm | [Hm | [_ Hp]]]; [contradiction| |].
  - rewrite (serve_post _ _ _ _ Hm). unfold post_outcome.
    destruct (js_ge (usage_seen env sv st req) (JNum DAILY_LIMIT)).
    + intros [= <-]. split; [right; eexists|]; reflexivity.
    + destruct (upstream sv (upstream_request env req)) as [r|e]; cbn [fst].
      * destruct (fr_text r); [|discriminate]. intros [= <-].
        split; [right; eexists|]; reflexivity.
      * intros [= <-]. split; [left|]; reflexivity.
  - rewrite (serve_not_allowed _ _ _ _ Ho Hp). intros [= <-].
    split; [left|]; reflexivity.
Qed.

Lemma response_headers_quota_only_witness :
  (res_headers (relayed_response (JNum 3) sample_reply "{}") = [] \/
   exists remaining,
     res_headers (relayed_response (JNum 3) sample_reply "{}")
     = [("X-RateLimit-Limit", "10"); ("X-RateLimit-Remaining", remaining)]) /\
  getHeader "Access-Control-Allow-Origin"
    (relayed_response (JNum 3) sample_reply "{}") = None.
Proof.
  apply (response_headers_quota_only sample_env sample_services
           (sample_store (VNum (JNum 3))) sample_request
           (relayed_response (JNum 3) sample_reply "{}")).
  - discriminate.
  - reflexivity.
Defined.

(** X20. Nothing of the inbound headers goes upstream.  Every call to the
    upstream API carries exactly three headers: the JSON content type, the
    API key of the configuration and the fixed version of the API; the
    headers of the inbound request are not forwarded. *)
Theorem inbound_headers_not_forwarded env sv st req r :
  In r (upstream_calls (effects (serve env sv st req).2)) ->
  fetch_headers r
  = [("Content-Type", "application/json");
     ("x-api-key", js_toString (env_value (ANTHROPIC_API_KEY env)));
     ("anthropic-version", "2023-06-01")].
Proof.
  intros Hin. now rewrite (upstream_call_is_request _ _ _ _ _ Hin).
Qed.

Lemma inbound_headers_not_forwarded_witness :
  fetch_headers
    (upstream_request sample_env
       (with_header "anthropic-beta" "tools" sample_request))
  = [("Content-Type", "application/json");
     ("x-api-key", "sk-server-key");
     ("anthropic-version", "2023-06-01")].
Proof.
  apply (inbound_headers_not_forwarded sample_env sample_services
           (sample_store (VNum (JNum 3)))
           (with_header "anthropic-beta" "tools" sample_request)).
  left. reflexivity.
Defined.

(** The change a request makes to the store is the same on two stores that
    agree on the caller's key: nothing, or the same entry under that key. *)
Lemma same_change env sv st1 st2 req :
  st1 !! usage_key sv req = st2 !! usage_key sv req ->
  (store (serve env sv st1 req).2 = st1 /\ store (serve env sv st2 req).2 = st2) \/
  (exists en,
     store (serve env sv st1 req).2 = <[usage_key sv req := en]> st1 /\
     store (serve env sv st2 req).2 = <[usage_key sv req := en]> st2).
Proof.
  intros Hkey.
  assert (Hseen : usage_seen env sv st1 req = usage_seen env sv st2 req).
  { unfold usage_seen, stored_value. now rewrite Hkey. }
  destruct (method_cases req) as [Hm | [Hm | [Ho Hp]]].
  - rewrite !(serve_options _ _ _ _ Hm). now left.
  - rewrite !(serve_post _ _ _ _ Hm). unfold post_outcome, world_after_call.
    rewrite Hseen.
    destruct (js_ge (usage_seen env sv st2 req) (JNum DAILY_LIMIT)); [now left|].
    destruct (upstream sv (upstream_request env req)) as [r|e]; [|now left].
    destruct (fr_ok r && bool_decide (is_Some (getRedis env)));
      [destruct (redis_set_fault sv)|]; try (now left).
    right. eexists. split; reflexivity.
  - rewrite !(serve_not_allowed _ _ _ _ Ho Hp). now left.
Qed.

(** X21. Callers do not interfere.  Two requests with different keys can
    be served in either order: each gets the same response, and the store
    is the same in the end. *)
Theorem callers_commute env svA reqA svB reqB st :
  usage_key svA reqA <> usage_key svB reqB ->
  (serve env svA (store (serve env svB st reqB).2) reqA).1
  = (serve env svA st reqA).1 /\
  (serve env svB (store (serve env svA st reqA).2) reqB).1
  = (serve env svB st reqB).1 /\
  store (serve env svA (store (serve env svB st reqB).2) reqA).2
  = store (serve env svB (store (serve env svA st reqA).2) reqB).2.
Proof.
  intros Hne.
  assert (HA : store (serve env svB st reqB).2 !! usage_key svA reqA
               = st !! usage_key svA reqA)
    by (apply lookup_other_key; exact Hne).
  assert (HB : store (serve env svA st reqA).2 !! usage_key svB reqB
               = st !! usage_key svB reqB)
    by (apply lookup_other_key; congruence).
  split; [apply (serve_local env svA _ _ reqA HA)|].
  split; [apply (serve_local env svB _ _ reqB HB)|].
  destruct (same_change env svA _ _ reqA HA) as [[-> HA'] | (enA & -> & HA')];
    destruct (same_change env svB _ _ reqB HB) as [[-> HB'] | (enB & -> & HB')];
    rewrite ?HA', ?HB'; try reflexivity.
  apply insert_insert_ne. exact Hne.
Qed.

Lemma callers_commute_witness :
  store (serve sample_env sample_services
           (store (serve sample_env sample_services ∅
                     (with_header "x-client-id" "fp-2" sample_request)).2)
           sample_request).2
  = store (serve sample_env sample_services
             (store (serve sample_env sample_services ∅ sample_request).2)
             (with_header "x-client-id" "fp-2" sample_request)).2.
Proof.
  apply (callers_commute sample_env sample_services sample_request
           sample_services (with_header "x-client-id" "fp-2" sample_request) ∅).
  discriminate.
Defined.

Lemma app_inv_tail_string (a a' s : string) : a +:+ s = a' +:+ s -> a = a'.
Proof.
  revert a'. induction a as [|c a IH]; intros [|c' a'] Heq.
  - reflexivity.
  - apply (f_equal String.length) in Heq.
    rewrite app_nil_string, app_cons_string in Heq. cbn [String.length] in Heq.
    rewrite length_app_string in Heq. lia.
  - apply (f_equal String.length) in Heq.
    rewrite app_nil_string, app_cons_string in Heq. cbn [String.length] in Heq.
    rewrite length_app_string in Heq. lia.
  - rewrite !app_cons_string in Heq. injection Heq as -> Heq.
    f_equal. now apply IH.
Qed.

(** X22. The client chooses its counter.  The key starts with the value of
    [X-Client-ID] as the client sent it: two requests that differ only in
    a non-empty [X-Client-ID] have different keys, hence separate
    counters. *)
Theorem client_id_selects_counter sv req a a' :
  a <> EmptyString ->
  a' <> EmptyString ->
  a <> a' ->
  usage_key sv (with_header "x-client-id" a req)
  <> usage_key sv (with_header "x-client-id" a' req).
Proof.
  intros Ha Ha' Hne Heq. apply Hne.
  unfold usage_key, identifier, clientId, clientIP, with_header in Heq.
  cbn [headers] in Heq.
  rewrite !lookup_insert_eq, !lookup_insert_ne in Heq by discriminate.
  assert (Hor : forall x : string, x <> EmptyString ->
            js_toString (js_or (env_value (Some x)) (VStr "unknown")) = x).
  { intros [|x0 x] Hx; [congruence | reflexivity]. }
  rewrite (Hor a Ha), (Hor a' Ha') in Heq.
  apply String.app_inj in Heq.
  rewrite <- !app_assoc_string in Heq.
  do 3 apply app_inv_tail_string in Heq.
  exact (app_inv_tail_string _ _ _ Heq).
Qed.

Lemma client_id_selects_counter_witness :
  usage_key sample_services (with_header "x-client-id" "fp-1" sample_request)
  <> usage_key sample_services (with_header "x-client-id" "fp-2" sample_request).
Proof.
  apply (client_id_selects_counter sample_services sample_request "fp-1" "fp-2");
    discriminate.
Defined.
